(** * Expense tracker: the state manager of [src/App.tsx]

    The component [App] keeps a per-month dataset, a category list and a few
    form fields in React state.  Every handler is a function of the state of
    the render it was created in; its [setX (prev => ...)] updates are applied
    to that same state, so a handler is embedded as a pure function from
    [AppState] to the next [AppState] (with the text of the [alert] it
    raises, if any).  Effects are embedded as separate functions, together
    with the dependency list that schedules them.

    [App.tsx] holds two variants of the component.  Their handlers and
    derived values are the same text; they differ in the dependency list of
    the month effect and in one extra effect of the second variant. *)

From Stdlib Require Import Floats Ascii.
From stdpp Require Import gmap strings list fin_maps pretty.

Local Open Scope string_scope.

(** ** JavaScript values *)

(** A value of a [number] field at run time: a double, or [null].
    [editingExpId] is declared [number | null]; the fields [id], [amount]
    and [income] are declared [number] but hold [null] once a dataset with a
    non-finite double went through [JSON.stringify] and [JSON.parse]. *)
Inductive number :=
  | null
  | Num (x : float).

(** [!!v]: [null], [0], [-0] and [NaN] are falsy. *)
Definition truthy (v : number) : bool :=
  match v with
  | null => false
  | Num x => negb (is_zero x || is_nan x)
  end.

(** [v || 0], which is a number whenever [v] is a number or [null]. *)
Definition orZero (v : number) : float :=
  match v with
  | Num x => if truthy v then x else 0%float
  | null => 0%float
  end.

(** The numeric coercion that [s + v] applies to [v] when [s] is a number. *)
Definition ToNumber (v : number) : float :=
  match v with
  | null => 0%float
  | Num x => x
  end.

(** [a === b]: IEEE equality on doubles ([NaN] differs from itself, [0]
    equals [-0]); [null] equals only [null]. *)
Definition strictEq (a b : number) : bool :=
  match a, b with
  | null, null => true
  | Num x, Num y => (x =? y)%float
  | _, _ => false
  end.

(** The two library functions on strings that the handlers call.  Their
    results depend on the Unicode tables and the numeric grammar of the
    JavaScript engine; the handlers are embedded over any implementation. *)
Class JSRuntime := {
  trim : string → string;      (* String.prototype.trim *)
  Number : string → float      (* Number(s) for a string s *)
}.

(** ** Data model (lines 9-11) *)

Record Expense := {
  id : number;
  title : string;
  amount : number;
  category : string
}.

Record MonthData := {
  income : number;
  expenses : list Expense
}.

Abbreviation Data := (gmap string MonthData).

(** [{ income: 0, expenses: [] }] *)
Definition emptyMonth : MonthData :=
  {| income := Num 0; expenses := [] |}.

(** ** Component state (lines 17-56)

    [incomeInput] is a number state; [expAmount] is the text of the amount
    field; [editingCategory] is [string | null]. *)
Record AppState := {
  data : Data;
  categories : list string;
  selectedMonth : string;
  incomeInput : float;
  expTitle : string;
  expAmount : string;
  expCategory : string;
  editingExpId : number;
  newCategoryInput : string;
  editingCategory : option string
}.

Definition setData (f : Data → Data) (st : AppState) : AppState :=
  {| data := f (data st); categories := categories st;
     selectedMonth := selectedMonth st; incomeInput := incomeInput st;
     expTitle := expTitle st; expAmount := expAmount st;
     expCategory := expCategory st; editingExpId := editingExpId st;
     newCategoryInput := newCategoryInput st;
     editingCategory := editingCategory st |}.

Definition setCategories (f : list string → list string) (st : AppState) : AppState :=
  {| data := data st; categories := f (categories st);
     selectedMonth := selectedMonth st; incomeInput := incomeInput st;
     expTitle := expTitle st; expAmount := expAmount st;
     expCategory := expCategory st; editingExpId := editingExpId st;
     newCategoryInput := newCategoryInput st;
     editingCategory := editingCategory st |}.

Definition setSelectedMonth (m : string) (st : AppState) : AppState :=
  {| data := data st; categories := categories st;
     selectedMonth := m; incomeInput := incomeInput st;
     expTitle := expTitle st; expAmount := expAmount st;
     expCategory := expCategory st; editingExpId := editingExpId st;
     newCategoryInput := newCategoryInput st;
     editingCategory := editingCategory st |}.

Definition setIncomeInput (x : float) (st : AppState) : AppState :=
  {| data := data st; categories := categories st;
     selectedMonth := selectedMonth st; incomeInput := x;
     expTitle := expTitle st; expAmount := expAmount st;
     expCategory := expCategory st; editingExpId := editingExpId st;
     newCategoryInput := newCategoryInput st;
     editingCategory := editingCategory st |}.

Definition setExpCategory (c : string) (st : AppState) : AppState :=
  {| data := data st; categories := categories st;
     selectedMonth := selectedMonth st; incomeInput := incomeInput st;
     expTitle := expTitle st; expAmount := expAmount st;
     expCategory := c; editingExpId := editingExpId st;
     newCategoryInput := newCategoryInput st;
     editingCategory := editingCategory st |}.

(** The four setters at the end of [handleAddOrUpdateExpense]. *)
Definition clearExpenseForm (st : AppState) : AppState :=
  {| data := data st; categories := categories st;
     selectedMonth := selectedMonth st; incomeInput := incomeInput st;
     expTitle := ""; expAmount := "";
     expCategory := hd "" (categories st); editingExpId := null;
     newCategoryInput := newCategoryInput st;
     editingCategory := editingCategory st |}.

(** [setEditingCategory(null); setNewCategoryInput("")] *)
Definition clearCategoryEdit (st : AppState) : AppState :=
  {| data := data st; categories := categories st;
     selectedMonth := selectedMonth st; incomeInput := incomeInput st;
     expTitle := expTitle st; expAmount := expAmount st;
     expCategory := expCategory st; editingExpId := editingExpId st;
     newCategoryInput := "";
     editingCategory := None |}.

Definition setNewCategoryInput (s : string) (st : AppState) : AppState :=
  {| data := data st; categories := categories st;
     selectedMonth := selectedMonth st; incomeInput := incomeInput st;
     expTitle := expTitle st; expAmount := expAmount st;
     expCategory := expCategory st; editingExpId := editingExpId st;
     newCategoryInput := s;
     editingCategory := editingCategory st |}.

(** What a handler that may call [alert] leaves behind. *)
Record Outcome := {
  alerted : option string;
  next : AppState
}.

Definition quiet (st : AppState) : Outcome :=
  {| alerted := None; next := st |}.

Definition alerting (msg : string) (st : AppState) : Outcome :=
  {| alerted := Some msg; next := st |}.

(** [prev[m] || { income: 0, expenses: [] }]: a stored record is an object,
    hence truthy. *)
Definition monthOrEmpty (d : Data) (m : string) : MonthData :=
  default emptyMonth (d !! m).

(** ** The deep copy [JSON.parse(JSON.stringify(prev))] (line 137)

    A finite double is written in the shortest decimal form that reads back
    as the same double, except that [-0] is written [0]; [NaN] and the
    infinities are written [null].  Strings and the shape of objects and
    arrays are kept. *)

Definition negZero (x : float) : bool := is_zero x && get_sign x.

Definition jsonNumber (v : number) : number :=
  match v with
  | null => null
  | Num x => if is_finite x then (if negZero x then Num 0 else Num x) else null
  end.

Definition jsonExpense (e : Expense) : Expense :=
  {| id := jsonNumber (id e); title := title e;
     amount := jsonNumber (amount e); category := category e |}.

Definition jsonMonth (m : MonthData) : MonthData :=
  {| income := jsonNumber (income m); expenses := jsonExpense <$> expenses m |}.

Definition jsonCopy (d : Data) : Data := jsonMonth <$> d.

(** ** Handlers *)

Section Handlers.
Context `{JSRuntime}.

(** Lines 60-68.  [incomeInput] is a number, so [Number(incomeInput)] is
    [incomeInput]. *)
Definition handleSaveIncome (st : AppState) : AppState :=
  setData (λ prev,
    <[selectedMonth st :=
        {| income := Num (incomeInput st);
           expenses := expenses (monthOrEmpty prev (selectedMonth st)) |}]> prev) st.

(** Lines 70-91.  [now] is the value of [Date.now()].  The three guarded
    values are strings, falsy exactly when empty. *)
Definition handleAddOrUpdateExpense (now : float) (st : AppState) : AppState :=
  if bool_decide (expTitle st = "") || bool_decide (expAmount st = "")
     || bool_decide (expCategory st = "")
  then st
  else
    clearExpenseForm
      (setData (λ prev,
         let month := monthOrEmpty prev (selectedMonth st) in
         let expenses0 := expenses month in
         if truthy (editingExpId st) then
           let updated :=
             (λ e,
                if strictEq (id e) (editingExpId st)
                then {| id := id e; title := expTitle st;
                        amount := Num (Number (expAmount st));
                        category := expCategory st |}
                else e) <$> expenses0 in
           <[selectedMonth st := {| income := income month; expenses := updated |}]> prev
         else
           let newExp :=
             {| id := Num now; title := expTitle st;
                amount := Num (Number (expAmount st));
                category := expCategory st |} in
           <[selectedMonth st :=
               {| income := income month; expenses := (expenses0 ++ [newExp])%list |}]> prev) st).

(** Lines 100-108. *)
Definition handleDeleteExpense (i : number) (st : AppState) : AppState :=
  setData (λ prev,
    let month := monthOrEmpty prev (selectedMonth st) in
    <[selectedMonth st :=
        {| income := income month;
           expenses := filter (λ e, strictEq (id e) i = false) (expenses month) |}]> prev) st.

(** Lines 110-119. *)
Definition handleAddCategory (st : AppState) : Outcome :=
  let v := trim (newCategoryInput st) in
  if bool_decide (v = "") then quiet st
  else if bool_decide (v ∈ categories st)
  then alerting "Category already exists" st
  else quiet (setNewCategoryInput "" (setCategories (λ prev, (prev ++ [v])%list) st)).

(** Lines 121-124. *)
Definition startEditCategory (cat : string) (st : AppState) : AppState :=
  {| data := data st; categories := categories st;
     selectedMonth := selectedMonth st; incomeInput := incomeInput st;
     expTitle := expTitle st; expAmount := expAmount st;
     expCategory := expCategory st; editingExpId := editingExpId st;
     newCategoryInput := cat;
     editingCategory := Some cat |}.

(** The callback of lines 139-141 on one expense. *)
Definition renameIn (old v : string) (ex : Expense) : Expense :=
  if bool_decide (category ex = old)
  then {| id := id ex; title := title ex; amount := amount ex; category := v |}
  else ex.

(** Lines 126-148.  [!editingCategory] holds for [null] and for the empty
    string. *)
Definition handleSaveEditedCategory (st : AppState) : Outcome :=
  let v := trim (newCategoryInput st) in
  match editingCategory st with
  | None => quiet st
  | Some old =>
    if bool_decide (v = "") || bool_decide (old = "") then quiet st
    else if bool_decide (v ∈ categories st) && negb (bool_decide (v = old))
    then alerting "Category name already used" st
    else
      quiet (clearCategoryEdit
        (setData (λ prev,
           (λ m, {| income := income m;
                    expenses := renameIn old v <$> expenses m |})
             <$> jsonCopy prev)
           (setCategories (λ prev, (λ c, if bool_decide (c = old) then v else c) <$> prev)
              st)))
  end.

(** [Object.values(data).some(m => m.expenses.some(e => e.category === cat))] *)
Definition categoryUsed (cat : string) (d : Data) : bool :=
  existsb (λ m, existsb (λ e, bool_decide (category e = cat)) (expenses m))
          (snd <$> map_to_list d).

(** Lines 150-163. *)
Definition handleDeleteCategory (cat : string) (st : AppState) : Outcome :=
  if categoryUsed cat (data st)
  then alerting "Cannot delete category with existing expenses." st
  else
    let st' := setCategories (λ prev, filter (λ c, c ≠ cat) prev) st in
    if bool_decide (editingCategory st = Some cat)
    then quiet (clearCategoryEdit st')
    else quiet st'.

End Handlers.

(** ** Effects *)

(** The month effect (lines 35-42 and 219-226): the same body in both
    variants.  The first variant gives it the dependency list [[]], so it
    runs once, after the first render, for the initially selected month; the
    second gives it [[selectedMonth, data]], so it runs again after every
    change of the selection or of the dataset. *)
Definition ensureMonth (st : AppState) : AppState :=
  match data st !! selectedMonth st with
  | Some _ => st
  | None => setData (λ prev, <[selectedMonth st := emptyMonth]> prev) st
  end.

(** Line 48: [setIncomeInput(data[selectedMonth]?.income || 0)]. *)
Definition syncIncomeInput (st : AppState) : AppState :=
  setIncomeInput
    (match data st !! selectedMonth st with
     | Some m => orZero (income m)
     | None => 0%float
     end) st.

(** Lines 241-243, second variant only. *)
Definition syncExpCategory (st : AppState) : AppState :=
  setExpCategory (hd "" (categories st)) st.

(** The state once the month and income effects of the first render have
    settled (both variants; the extra effect of the second variant sets
    [expCategory] to the value it is initialised with). *)
Definition mount (st : AppState) : AppState :=
  syncIncomeInput (ensureMonth st).

(** Selecting [m] in the month selector of the second variant (line 367),
    once the effects that depend on [selectedMonth] have settled. *)
Definition selectMonth (m : string) (st : AppState) : AppState :=
  syncIncomeInput (ensureMonth (setSelectedMonth m st)).

(** ** Derived values (lines 58, 165-174) *)

Definition monthExpenses (st : AppState) : list Expense :=
  match data st !! selectedMonth st with
  | Some m => expenses m
  | None => []
  end.

(** [l.reduce((s, e) => s + e.amount, 0)] *)
Definition sumAmounts (l : list Expense) : float :=
  fold_left (λ s e, (s + ToNumber (amount e))%float) l 0%float.

Definition totalExpense (st : AppState) : float :=
  sumAmounts (monthExpenses st).

Definition remaining (st : AppState) : float :=
  (match data st !! selectedMonth st with
   | Some m => orZero (income m)
   | None => 0
   end - totalExpense st)%float.

Record Bucket := {
  name : string;
  value : float
}.

Definition chartData (st : AppState) : list Bucket :=
  let ex := monthExpenses st in
  (λ cat,
     {| name := cat;
        value := sumAmounts (filter (λ e, category e = cat) ex) |})
    <$> categories st.

(** ** Persistence (lines 17-31, 44-45)

    The stored blob is JSON text.  [JSON.stringify] and [JSON.parse] are
    embedded up to the concrete syntax: a blob is the JSON document that the
    text denotes, so the two functions below are the value-to-document and
    document-to-value halves of the two library calls. *)

#[local] Unset Elimination Schemes.
Inductive json :=
  | JNull
  | JBool (b : bool)
  | JNumber (x : float)
  | JString (s : string)
  | JArray (items : list json)
  | JObject (members : list (string * json)).
#[local] Set Elimination Schemes.

Definition stringifyNumber (v : number) : json :=
  match v with
  | null => JNull
  | Num x => if is_finite x then JNumber (if negZero x then 0 else x) else JNull
  end.

Definition stringifyExpense (e : Expense) : json :=
  JObject [("id", stringifyNumber (id e)); ("title", JString (title e));
           ("amount", stringifyNumber (amount e)); ("category", JString (category e))].

Definition stringifyMonth (m : MonthData) : json :=
  JObject [("income", stringifyNumber (income m));
           ("expenses", JArray (stringifyExpense <$> expenses m))].

(** [JSON.stringify(data)] *)
Definition stringifyData (d : Data) : json :=
  JObject ((λ kv, (kv.1, stringifyMonth kv.2)) <$> map_to_list d).

(** [JSON.stringify(categories)] *)
Definition stringifyCategories (cs : list string) : json :=
  JArray (JString <$> cs).

(** The property [k] of a parsed object: of several members with the same
    name the last one is kept. *)
Fixpoint member (k : string) (members : list (string * json)) : option json :=
  match members with
  | [] => None
  | (k', v) :: rest =>
    match member k rest with
    | Some w => Some w
    | None => if String.eqb k' k then Some v else None
    end
  end.

(** Reading a parsed document at the type the component declares for it.
    [JSON.parse] itself checks nothing: [None] stands for a value that is not
    of the declared type, on which the component is not followed. *)
Definition readNumber (j : json) : option number :=
  match j with
  | JNull => Some null
  | JNumber x => Some (Num x)
  | _ => None
  end.

Definition readString (j : json) : option string :=
  match j with
  | JString s => Some s
  | _ => None
  end.

Definition readExpense (j : json) : option Expense :=
  match j with
  | JObject ms =>
    i ← member "id" ms ≫= readNumber;
    t ← member "title" ms ≫= readString;
    a ← member "amount" ms ≫= readNumber;
    c ← member "category" ms ≫= readString;
    Some {| id := i; title := t; amount := a; category := c |}
  | _ => None
  end.

Definition readExpenses (j : json) : option (list Expense) :=
  match j with
  | JArray items => mapM readExpense items
  | _ => None
  end.

Definition readMonth (j : json) : option MonthData :=
  match j with
  | JObject ms =>
    i ← member "income" ms ≫= readNumber;
    es ← member "expenses" ms ≫= readExpenses;
    Some {| income := i; expenses := es |}
  | _ => None
  end.

Definition readData (j : json) : option Data :=
  match j with
  | JObject ms =>
    list_to_map <$> mapM (λ kv, (λ m, (kv.1, m)) <$> readMonth kv.2) (reverse ms)
  | _ => None
  end.

Definition readCategories (j : json) : option (list string) :=
  match j with
  | JArray items => mapM readString items
  | _ => None
  end.

(** What [localStorage.getItem] and [JSON.parse] find under a key: nothing
    (or the empty text), a text that [JSON.parse] rejects, or a document. *)
Inductive blob :=
  | Absent
  | Unparsable
  | Parsed (j : json).

(** Lines 17-23; [currentMonth] is the value of [getCurrentMonth()]. *)
Definition loadData (currentMonth : string) (saved : blob) : option Data :=
  match saved with
  | Parsed j => readData j
  | _ => Some {[ currentMonth := emptyMonth ]}
  end.

(** Lines 25-31. *)
Definition loadCategories (saved : blob) : option (list string) :=
  match saved with
  | Parsed j => readCategories j
  | _ => Some ["Food"; "Travel"; "Shopping"; "Bills"]
  end.

(** Lines 44-45: the blobs written after a render in which [data] or
    [categories] changed. *)
Definition storeData (d : Data) : blob := Parsed (stringifyData d).
Definition storeCategories (cs : list string) : blob := Parsed (stringifyCategories cs).

(** ** A runtime for closed examples

    ASCII white space for [trim]; unsigned decimal integers for [Number]
    (the empty text is [0], any other text is [NaN]). *)

Definition isSpace (c : Ascii.ascii) : bool :=
  match c with
  | " "%char | "009"%char | "010"%char | "011"%char | "012"%char | "013"%char => true
  | _ => false
  end.

Fixpoint trimStart (s : string) : string :=
  match s with
  | String c rest => if isSpace c then trimStart rest else s
  | EmptyString => EmptyString
  end.

Fixpoint trimEnd (s : string) : string :=
  match s with
  | String c rest =>
    match trimEnd rest with
    | EmptyString => if isSpace c then EmptyString else String c EmptyString
    | t => String c t
    end
  | EmptyString => EmptyString
  end.

Definition digit (c : Ascii.ascii) : option float :=
  match c with
  | "0"%char => Some 0%float | "1"%char => Some 1%float
  | "2"%char => Some 2%float | "3"%char => Some 3%float
  | "4"%char => Some 4%float | "5"%char => Some 5%float
  | "6"%char => Some 6%float | "7"%char => Some 7%float
  | "8"%char => Some 8%float | "9"%char => Some 9%float
  | _ => None
  end.

Fixpoint decimal (acc : float) (s : string) : float :=
  match s with
  | EmptyString => acc
  | String c rest =>
    match digit c with
    | Some d => decimal (acc * 10 + d)%float rest
    | None => nan
    end
  end.

Definition exampleRuntime : JSRuntime :=
  {| trim := λ s, trimEnd (trimStart s); Number := decimal 0 |}.

(** ** Numbers that JSON text denotes

    [null] and the finite doubles other than [-0]: the values that
    [JSON.stringify] followed by [JSON.parse] gives back as they were. *)

Definition jsonExactNumber (v : number) : bool :=
  match v with
  | null => true
  | Num x => is_finite x && negb (negZero x)
  end.

Definition jsonExactExpense (e : Expense) : bool :=
  jsonExactNumber (id e) && jsonExactNumber (amount e).

Definition jsonExactMonth (m : MonthData) : bool :=
  jsonExactNumber (income m) && forallb jsonExactExpense (expenses m).

Definition jsonExactData (d : Data) : bool :=
  forallb jsonExactMonth (snd <$> map_to_list d).

(** ** States for closed examples *)

Definition expense (i : float) (t : string) (a : float) (c : string) : Expense :=
  {| id := Num i; title := t; amount := Num a; category := c |}.

(** Two months of records: income 5000 with a rent of 1200 and a lunch of
    300 in May, income 4000 with a dinner of 80 in April. *)
Definition twoMonths : Data :=
  <["2024-05" := {| income := Num 5000;
                     expenses := [expense 1 "Rent" 1200 "Bills";
                                  expense 2 "Lunch" 300 "Food"] |}]>
  (<["2024-04" := {| income := Num 4000;
                      expenses := [expense 3 "Dinner" 80 "Food"] |}]> ∅).

(** A state on dataset [d] with the default categories, month [sel]
    selected and the given form fields. *)
Definition formState (d : Data) (sel : string) (t a c : string) (target : number)
    (input : string) (edited : option string) : AppState :=
  {| data := d; categories := ["Food"; "Travel"; "Shopping"; "Bills"];
     selectedMonth := sel; incomeInput := 0;
     expTitle := t; expAmount := a; expCategory := c; editingExpId := target;
     newCategoryInput := input; editingCategory := edited |}.

(** May selected, nothing in the forms. *)
Definition mayState : AppState :=
  formState twoMonths "2024-05" "" "" "Food" null "" None.

(** ** The rest of the component *)

(** [s.padStart(target, "0")] *)
Fixpoint zeros (n : nat) : string :=
  match n with
  | O => ""
  | S k => String "0" (zeros k)
  end.

Definition padStart (target : nat) (s : string) : string :=
  zeros (target - String.length s) +:+ s.

(** Lines 4-7.  [year] is the value of [now.getFullYear()], an integer;
    [month] is the value of [now.getMonth()], from 0 for January. *)
Definition getCurrentMonth (year : Z) (month : nat) : string :=
  pretty year +:+ "-" +:+ padStart 2 (pretty (month + 1)).

(** Lines 93-98.  [toString] is [Number.prototype.toString]; on an amount
    that is [null] the call [expense.amount.toString()] throws a
    [TypeError]: [None]. *)
Definition handleEditExpense (toString : float → string) (expense : Expense)
    (st : AppState) : option AppState :=
  match amount expense with
  | null => None
  | Num a =>
    Some {| data := data st; categories := categories st;
            selectedMonth := selectedMonth st; incomeInput := incomeInput st;
            expTitle := title expense; expAmount := toString a;
            expCategory := category expense; editingExpId := id expense;
            newCategoryInput := newCategoryInput st;
            editingCategory := editingCategory st |}
  end.

(** Lines 357 and 477-479: the colour of the pie slice of bucket [index],
    [COLORS[index % COLORS.length]]. *)
Definition COLORS : list string :=
  ["#0088FE"; "#00C49F"; "#FFBB28"; "#FF8042"; "#A020F0"; "#DC143C"].

Definition cellFill (index : nat) : option string :=
  COLORS !! (index mod length COLORS).

(** Every expense of every month carries a category of the category list. *)
Definition referenced (st : AppState) : Prop :=
  ∀ m r e, data st !! m = Some r → e ∈ expenses r → category e ∈ categories st.

(** The same, as a test. *)
Definition referencedb (st : AppState) : bool :=
  forallb (λ r, forallb (λ e, bool_decide (category e ∈ categories st)) (expenses r))
          (snd <$> map_to_list (data st)).

(** * Properties *)

(** ** Month selection *)

Lemma setSelectedMonth_same st : setSelectedMonth (selectedMonth st) st = st.
Proof. by destruct st. Qed.

Lemma ensureMonth_lookup st :
  data (ensureMonth st) !! selectedMonth st
  = Some (monthOrEmpty (data st) (selectedMonth st)).
Proof.
  unfold ensureMonth, monthOrEmpty.
  destruct (data st !! selectedMonth st) as [r|] eqn:E; simpl.
  - by rewrite E.
  - by rewrite lookup_insert_eq.
Qed.

Lemma ensureMonth_other st m' :
  m' ≠ selectedMonth st → data (ensureMonth st) !! m' = data st !! m'.
Proof.
  intros Hne. unfold ensureMonth.
  destruct (data st !! selectedMonth st); simpl; [done|].
  by rewrite lookup_insert_ne.
Qed.

Lemma ensureMonth_selected st : selectedMonth (ensureMonth st) = selectedMonth st.
Proof. unfold ensureMonth. by destruct (data st !! selectedMonth st). Qed.

Lemma ensureMonth_present st :
  is_Some (data st !! selectedMonth st) → ensureMonth st = st.
Proof. intros [r E]. unfold ensureMonth. by rewrite E. Qed.

Lemma ensureMonth_idem st : ensureMonth (ensureMonth st) = ensureMonth st.
Proof.
  apply ensureMonth_present. rewrite ensureMonth_selected, ensureMonth_lookup. eauto.
Qed.

(** C1: selecting a month key without a record creates the record
    [{income: 0, expenses: []}] for it and keeps every other month's record;
    selecting a key that has a record leaves the dataset as it is; selecting
    the same key again changes nothing more.  The effect run after the first
    render ([mount]) is the same step for the initially selected month. *)
Theorem C1_month_selection_materializes (st : AppState) (m : string) :
  let st' := selectMonth m st in
  selectedMonth st' = m
  ∧ (data st !! m = None → data st' = <[m := emptyMonth]> (data st))
  ∧ (∀ r, data st !! m = Some r → data st' = data st)
  ∧ (∀ m', m' ≠ m → data st' !! m' = data st !! m')
  ∧ selectMonth m st' = st'
  ∧ mount st = selectMonth (selectedMonth st) st.
Proof.
  unfold selectMonth, mount. simpl. repeat split.
  - apply ensureMonth_selected.
  - intros E. unfold ensureMonth. simpl. by rewrite E.
  - intros r E. unfold ensureMonth. simpl. by rewrite E.
  - intros m' Hne. by apply (ensureMonth_other (setSelectedMonth m st)).
  - set (s1 := ensureMonth (setSelectedMonth m st)).
    assert (Hsel : selectedMonth s1 = m) by apply ensureMonth_selected.
    assert (Hs : setSelectedMonth m (syncIncomeInput s1) = syncIncomeInput s1).
    { rewrite <- Hsel at 1. apply (setSelectedMonth_same (syncIncomeInput s1)). }
    rewrite Hs.
    assert (He : ensureMonth (syncIncomeInput s1) = syncIncomeInput s1).
    { apply ensureMonth_present. simpl. rewrite Hsel.
      pose proof (ensureMonth_lookup (setSelectedMonth m st)) as L. simpl in L.
      fold s1 in L. rewrite L. eauto. }
    rewrite He. unfold syncIncomeInput. simpl. done.
  - by rewrite setSelectedMonth_same.
Qed.

(** ** Expense handlers *)

Section ExpenseProperties.
Context `{JSRuntime}.

Lemma monthExpenses_monthOrEmpty st :
  monthExpenses st = expenses (monthOrEmpty (data st) (selectedMonth st)).
Proof.
  unfold monthExpenses, monthOrEmpty.
  by destruct (data st !! selectedMonth st).
Qed.

Lemma submit_guard_passes now st :
  expTitle st ≠ "" → expAmount st ≠ "" → expCategory st ≠ "" →
  handleAddOrUpdateExpense now st
  = clearExpenseForm
      (setData (λ prev,
         let month := monthOrEmpty prev (selectedMonth st) in
         if truthy (editingExpId st) then
           <[selectedMonth st :=
               {| income := income month;
                  expenses :=
                    (λ e, if strictEq (id e) (editingExpId st)
                          then {| id := id e; title := expTitle st;
                                  amount := Num (Number (expAmount st));
                                  category := expCategory st |}
                          else e) <$> expenses month |}]> prev
         else
           <[selectedMonth st :=
               {| income := income month;
                  expenses :=
                    (expenses month
                     ++ [{| id := Num now; title := expTitle st;
                            amount := Num (Number (expAmount st));
                            category := expCategory st |}])%list |}]> prev) st).
Proof.
  intros Ht Ha Hc. unfold handleAddOrUpdateExpense.
  rewrite !bool_decide_eq_false_2 by done. done.
Qed.

(** C8: with an active edit target (a truthy [editingExpId]) a submission
    that passes the guard keeps the month's expense sequence as long as it
    was; at every position, an expense whose [id] is the target's gets the
    submitted title, amount and category and keeps its [id], and any other
    expense is kept as it is.  The month's income and the other months are
    untouched. *)
Theorem C8_edit_updates_in_place (now : float) (st : AppState) :
  truthy (editingExpId st) = true →
  expTitle st ≠ "" → expAmount st ≠ "" → expCategory st ≠ "" →
  let st' := handleAddOrUpdateExpense now st in
  ∃ r', data st' !! selectedMonth st = Some r'
    ∧ income r' = income (monthOrEmpty (data st) (selectedMonth st))
    ∧ length (expenses r') = length (monthExpenses st)
    ∧ (∀ i e, monthExpenses st !! i = Some e →
         strictEq (id e) (editingExpId st) = true →
         expenses r' !! i
         = Some {| id := id e; title := expTitle st;
                   amount := Num (Number (expAmount st));
                   category := expCategory st |})
    ∧ (∀ i e, monthExpenses st !! i = Some e →
         strictEq (id e) (editingExpId st) = false →
         expenses r' !! i = Some e)
    ∧ (∀ m, m ≠ selectedMonth st → data st' !! m = data st !! m).
Proof.
  intros Hact Ht Ha Hc. simpl.
  rewrite submit_guard_passes by done. simpl. rewrite Hact.
  eexists. split; [apply lookup_insert_eq|]. simpl.
  rewrite monthExpenses_monthOrEmpty.
  split; [done|]. split; [by rewrite length_fmap|].
  split; [|split].
  - intros i e Hi Heq. rewrite list_lookup_fmap, Hi. simpl. by rewrite Heq.
  - intros i e Hi Hne. rewrite list_lookup_fmap, Hi. simpl. by rewrite Hne.
  - intros m Hm. by rewrite lookup_insert_ne.
Qed.

(** C9: a submission whose title, amount text or category is empty returns
    at the guard: the state, and with it the dataset, is the one before. *)
Theorem C9_submit_with_empty_field_is_noop (now : float) (st : AppState) :
  expTitle st = "" ∨ expAmount st = "" ∨ expCategory st = "" →
  handleAddOrUpdateExpense now st = st.
Proof.
  intros Hempty. unfold handleAddOrUpdateExpense.
  destruct Hempty as [E | [E | E]]; rewrite E; simpl.
  - done.
  - by rewrite orb_true_r.
  - by rewrite orb_true_r.
Qed.

End ExpenseProperties.

(** C10: when the selected month has no record, deleting an expense and
    saving the income each leave a dataset that differs from the one before
    in having a record for that month: the empty record after a deletion,
    the saved income with no expenses after a save.  The records of the
    other months are the ones before. *)
Theorem C10_missing_month_is_materialized (i : number) (st : AppState) :
  data st !! selectedMonth st = None →
  data (handleDeleteExpense i st) !! selectedMonth st = Some emptyMonth
  ∧ data (handleSaveIncome st) !! selectedMonth st
    = Some {| income := Num (incomeInput st); expenses := [] |}
  ∧ data (handleDeleteExpense i st) ≠ data st
  ∧ data (handleSaveIncome st) ≠ data st
  ∧ (∀ m, m ≠ selectedMonth st →
       data (handleDeleteExpense i st) !! m = data st !! m
       ∧ data (handleSaveIncome st) !! m = data st !! m).
Proof.
  intros Hnone.
  assert (Hd : data (handleDeleteExpense i st) !! selectedMonth st = Some emptyMonth).
  { unfold handleDeleteExpense, monthOrEmpty. simpl.
    rewrite lookup_insert_eq, Hnone. done. }
  assert (Hs : data (handleSaveIncome st) !! selectedMonth st
               = Some {| income := Num (incomeInput st); expenses := [] |}).
  { unfold handleSaveIncome, monthOrEmpty. simpl.
    rewrite lookup_insert_eq, Hnone. done. }
  repeat split; try done.
  - intros E. rewrite E, Hnone in Hd. done.
  - intros E. rewrite E, Hnone in Hs. done.
  - unfold handleDeleteExpense. simpl. by rewrite lookup_insert_ne.
  - unfold handleSaveIncome. simpl. by rewrite lookup_insert_ne.
Qed.

(** ** Category handlers *)

Lemma categoryUsed_spec (cat : string) (d : Data) :
  categoryUsed cat d = true
  ↔ ∃ m r e, d !! m = Some r ∧ e ∈ expenses r ∧ category e = cat.
Proof.
  unfold categoryUsed. rewrite existsb_exists. split.
  - intros (r & Hr & He).
    apply list_elem_of_In, list_elem_of_fmap in Hr as ([m r'] & -> & Hm).
    apply elem_of_map_to_list in Hm.
    apply existsb_exists in He as (e & He & Hc).
    apply list_elem_of_In in He. apply bool_decide_eq_true in Hc.
    by exists m, r', e.
  - intros (m & r & e & Hm & He & Hc).
    exists r. split.
    + apply list_elem_of_In, list_elem_of_fmap. exists (m, r).
      split; [done|]. by apply elem_of_map_to_list.
    + apply existsb_exists. exists e. split; [by apply list_elem_of_In|].
      by apply bool_decide_eq_true.
Qed.

(** C3: deleting a category alerts exactly when some expense of some month
    carries it, and then leaves the whole state as it was; otherwise the
    dataset is kept, the category list loses the name and nothing else, and
    the category edit is closed if it was an edit of that name. *)
Theorem C3_delete_category_guard (cat : string) (st : AppState) :
  let out := handleDeleteCategory cat st in
  let used := ∃ m r e, data st !! m = Some r ∧ e ∈ expenses r ∧ category e = cat in
  (is_Some (alerted out) ↔ used)
  ∧ (used → next out = st)
  ∧ (¬ used →
       data (next out) = data st
       ∧ categories (next out) = filter (λ c, c ≠ cat) (categories st)
       ∧ (cat ∉ categories (next out))
       ∧ (editingCategory st = Some cat →
            editingCategory (next out) = None ∧ newCategoryInput (next out) = "")
       ∧ (editingCategory st ≠ Some cat →
            editingCategory (next out) = editingCategory st
            ∧ newCategoryInput (next out) = newCategoryInput st)).
Proof.
  simpl. unfold handleDeleteCategory.
  pose proof (categoryUsed_spec cat (data st)) as Hspec.
  destruct (categoryUsed cat (data st)) eqn:Hused; simpl.
  - split; [|split].
    + split; [intros _; by apply Hspec | eauto].
    + done.
    + intros Hn. exfalso. apply Hn. by apply Hspec.
  - assert (Hnot : ¬ ∃ m r e, data st !! m = Some r ∧ e ∈ expenses r ∧ category e = cat).
    { intros Hu. apply Hspec in Hu. done. }
    split; [|split].
    + split; [intros [? ?]; by destruct (bool_decide _) | done].
    + done.
    + intros _.
      destruct (bool_decide (editingCategory st = Some cat)) eqn:Hed; simpl.
      * apply bool_decide_eq_true in Hed.
        repeat split; try done.
        rewrite list_elem_of_filter. by intros [? _].
      * apply bool_decide_eq_false in Hed.
        repeat split; try done.
        rewrite list_elem_of_filter. by intros [? _].
Qed.

Lemma NoDup_rename (old v : string) (l : list string) :
  NoDup l → v ∉ l ∨ v = old →
  NoDup ((λ c, if bool_decide (c = old) then v else c) <$> l).
Proof.
  intros Hnd [Hfresh | ->].
  - apply NoDup_fmap_2_strong; [|done].
    intros x y Hx Hy. repeat case_bool_decide; intros E; subst; congruence.
  - rewrite (list_fmap_ext _ (λ c, c) l); [by rewrite list_fmap_id|].
    intros i c _. by case_bool_decide.
Qed.

(** C7: from a category list without repeated names, adding, renaming and
    deleting a category each leave a list without repeated names. *)
Theorem C7_categories_stay_distinct `{JSRuntime} (st : AppState) (cat : string) :
  NoDup (categories st) →
  NoDup (categories (next (handleAddCategory st)))
  ∧ NoDup (categories (next (handleSaveEditedCategory st)))
  ∧ NoDup (categories (next (handleDeleteCategory cat st))).
Proof.
  intros Hnd. split; [|split].
  - unfold handleAddCategory.
    case_bool_decide; [done|]. case_bool_decide; [done|]. simpl.
    apply NoDup_app. split; [done|]. split; [|apply NoDup_singleton].
    intros x Hx Hin. apply list_elem_of_singleton in Hin. by subst.
  - unfold handleSaveEditedCategory.
    destruct (editingCategory st) as [old|]; [|done].
    destruct (_ || _); [done|].
    destruct (bool_decide (trim (newCategoryInput st) ∈ categories st)) eqn:Hin; simpl.
    + destruct (bool_decide (trim (newCategoryInput st) = old)) eqn:Heq; simpl; [|done].
      apply bool_decide_eq_true in Heq. apply NoDup_rename; auto.
    + apply bool_decide_eq_false in Hin. apply NoDup_rename; auto.
  - unfold handleDeleteCategory.
    destruct (categoryUsed cat (data st)); [done|].
    destruct (bool_decide _); simpl; by apply NoDup_filter.
Qed.

(** ** Derived values *)

Lemma sumAmounts_nil : sumAmounts [] = 0%float.
Proof. reflexivity. Qed.

Lemma sumAmounts_snoc (l : list Expense) (e : Expense) :
  sumAmounts (l ++ [e]) = (sumAmounts l + ToNumber (amount e))%float.
Proof. unfold sumAmounts. by rewrite fold_left_app. Qed.

Lemma monthExpenses_record (st : AppState) (r : MonthData) :
  data st !! selectedMonth st = Some r → monthExpenses st = expenses r.
Proof. intros E. unfold monthExpenses. by rewrite E. Qed.

Lemma filter_none {A} (P : A → Prop) `{∀ x, Decision (P x)} (l : list A) :
  (∀ x, x ∈ l → ¬ P x) → filter P l = [].
Proof.
  induction l as [|x l IH]; intros Hall; [done|].
  rewrite filter_cons_False by (apply Hall; left).
  apply IH. intros y Hy. apply Hall. by right.
Qed.

Lemma sumAmounts_fold (l : list Expense) :
  sumAmounts l
  = fold_left (λ s a, (s + a)%float) ((λ e, ToNumber (amount e)) <$> l) 0%float.
Proof.
  unfold sumAmounts. generalize 0%float.
  induction l as [|e l IH]; intros s; [done|]. csimpl. apply IH.
Qed.

(** C4: the chart data has one bucket per entry of the category list, in
    the order of the list; the bucket of a category carries its name and the
    sum of the amounts of the selected month's expenses of that category,
    the amounts being added one after the other to 0 in the order of the
    expenses ([null] counting as 0); a category without expenses in that
    month has a bucket of value 0.  A selected month without a record has
    no expenses. *)
Theorem C4_chart_buckets (st : AppState) :
  let ex := match data st !! selectedMonth st with
            | Some r => expenses r
            | None => []
            end in
  length (chartData st) = length (categories st)
  ∧ name <$> chartData st = categories st
  ∧ (∀ i cat, categories st !! i = Some cat →
       chartData st !! i
       = Some {| name := cat;
                 value :=
                   fold_left (λ s a, (s + a)%float)
                     ((λ e, ToNumber (amount e))
                        <$> filter (λ e, category e = cat) ex)
                     0%float |})
  ∧ (∀ i cat, categories st !! i = Some cat →
       (∀ e, e ∈ ex → category e ≠ cat) →
       chartData st !! i = Some {| name := cat; value := 0 |}).
Proof.
  intros ex.
  assert (Hex : monthExpenses st = ex) by reflexivity.
  assert (Hat : ∀ i cat, categories st !! i = Some cat →
            chartData st !! i
            = Some {| name := cat;
                      value :=
                        fold_left (λ s a, (s + a)%float)
                          ((λ e, ToNumber (amount e))
                             <$> filter (λ e, category e = cat) ex)
                          0%float |}).
  { intros i cat Hi. unfold chartData.
    rewrite list_lookup_fmap, Hi. simpl. by rewrite sumAmounts_fold, Hex. }
  split; [|split; [|split]].
  - unfold chartData. by rewrite length_fmap.
  - unfold chartData. rewrite <- list_fmap_compose.
    rewrite (list_fmap_ext _ (λ c, c) (categories st)); [by rewrite list_fmap_id|done].
  - exact Hat.
  - intros i cat Hi Hno. rewrite (Hat i cat Hi).
    by rewrite (filter_none _ _ Hno).
Qed.

(** Three expenses in May: the two of "Food" add up to 150, the one of
    "Travel" gives 40, the two other categories have a bucket of 0. *)
Lemma C4_chart_buckets_witness :
  let d : Data :=
    {[ "2024-05" := {| income := Num 0;
                       expenses := [expense 1 "Lunch" 100 "Food";
                                    expense 2 "Taxi" 40 "Travel";
                                    expense 3 "Dinner" 50 "Food"] |} ]} in
  let st := formState d "2024-05" "" "" "Food" null "" None in
  length (chartData st) = 4
  ∧ chartData st !! 0 = Some {| name := "Food"; value := 150 |}
  ∧ chartData st !! 1 = Some {| name := "Travel"; value := 40 |}
  ∧ chartData st !! 2 = Some {| name := "Shopping"; value := 0 |}
  ∧ chartData st !! 3 = Some {| name := "Bills"; value := 0 |}.
Proof.
  intros d st.
  destruct (C4_chart_buckets st) as (Hlen & _ & Hat & Hzero).
  split; [exact Hlen|].
  split; [exact (Hat 0 "Food" eq_refl)|].
  split; [exact (Hat 1 "Travel" eq_refl)|].
  split.
  - apply (Hzero 2 "Shopping" eq_refl).
    intros e He. vm_compute in He.
    repeat (apply elem_of_cons in He as [-> | He]); try discriminate.
    by apply elem_of_nil in He.
  - apply (Hzero 3 "Bills" eq_refl).
    intros e He. vm_compute in He.
    repeat (apply elem_of_cons in He as [-> | He]); try discriminate.
    by apply elem_of_nil in He.
Defined.

(** C5: the total is the sum, accumulated from 0 in list order, of the
    amounts of the selected month's expenses.  The remaining value is the
    income minus the total when the income is truthy (a number other than
    0 and NaN), and 0 minus the total when the income is falsy. *)
Theorem C5_total_and_remaining (st : AppState) (r : MonthData) :
  data st !! selectedMonth st = Some r →
  totalExpense st = sumAmounts (expenses r)
  ∧ (truthy (income r) = true →
       remaining st = (ToNumber (income r) - totalExpense st)%float)
  ∧ (truthy (income r) = false →
       remaining st = (0 - totalExpense st)%float).
Proof.
  intros E.
  assert (Htotal : totalExpense st = sumAmounts (expenses r)).
  { unfold totalExpense. by rewrite (monthExpenses_record st r E). }
  split; [done|]. unfold remaining, orZero. rewrite E.
  split; intros Ht; destruct (income r) as [|x]; rewrite ?Ht; done.
Qed.

(** The example of the specification: income 5000 and amounts 1200 and
    300. *)
Lemma C5_total_and_remaining_witness :
  totalExpense mayState = 1500%float ∧ remaining mayState = 3500%float.
Proof.
  destruct (C5_total_and_remaining mayState
              {| income := Num 5000;
                 expenses := [expense 1 "Rent" 1200 "Bills";
                              expense 2 "Lunch" 300 "Food"] |})
    as (Htotal & Hrem & _).
  - vm_compute. reflexivity.
  - split.
    + rewrite Htotal. vm_compute. reflexivity.
    + rewrite Hrem by (vm_compute; reflexivity). vm_compute. reflexivity.
Defined.

(** An income of NaN: the remaining value is 0 minus the total, not the
    income minus the total. *)
Lemma C5_counterexample :
  let st := setData (λ d, <["2024-05" := {| income := Num nan;
                                             expenses := [expense 1 "Rent" 1200 "Bills";
                                                          expense 2 "Lunch" 300 "Food"] |}]> d)
              mayState in
  (income <$> data st !! selectedMonth st) = Some (Num nan)
  ∧ totalExpense st = 1500%float
  ∧ remaining st = (- 1500)%float
  ∧ remaining st ≠ (nan - totalExpense st)%float.
Proof.
  simpl. split; [by vm_compute|]. split; [by vm_compute|]. split; [by vm_compute|].
  intros Heq. apply (f_equal is_nan) in Heq. vm_compute in Heq. discriminate.
Qed.

(** ** The JSON copy and the stored blobs *)

Lemma jsonNumber_exact (v : number) :
  jsonExactNumber v = true → jsonNumber v = v.
Proof.
  destruct v as [|x]; [done|]. simpl.
  intros [Hfin Hneg]%andb_true_iff. apply negb_true_iff in Hneg.
  by rewrite Hfin, Hneg.
Qed.

Lemma jsonExpense_exact (e : Expense) :
  jsonExactExpense e = true → jsonExpense e = e.
Proof.
  intros [Hi Ha]%andb_true_iff. unfold jsonExpense.
  rewrite (jsonNumber_exact _ Hi), (jsonNumber_exact _ Ha). by destruct e.
Qed.

Lemma jsonMonth_exact (m : MonthData) :
  jsonExactMonth m = true → jsonMonth m = m.
Proof.
  intros [Hi He]%andb_true_iff. unfold jsonMonth.
  rewrite (jsonNumber_exact _ Hi).
  assert (Hes : jsonExpense <$> expenses m = expenses m).
  { rewrite forallb_forall in He.
    rewrite (list_fmap_ext _ (λ e, e) (expenses m)); [by rewrite list_fmap_id|].
    intros i e Hie. apply jsonExpense_exact, He, list_elem_of_In.
    by apply list_elem_of_lookup_2 in Hie. }
  rewrite Hes. by destruct m.
Qed.

Lemma jsonExactData_lookup (d : Data) (m : string) (r : MonthData) :
  jsonExactData d = true → d !! m = Some r → jsonExactMonth r = true.
Proof.
  unfold jsonExactData. rewrite forallb_forall. intros Hall Hm.
  apply Hall, list_elem_of_In, list_elem_of_fmap. exists (m, r).
  split; [done|]. by apply elem_of_map_to_list.
Qed.

Lemma jsonCopy_exact (d : Data) :
  jsonExactData d = true → jsonCopy d = d.
Proof.
  intros Hexact. apply map_eq. intros m. unfold jsonCopy.
  rewrite lookup_fmap. destruct (d !! m) as [r|] eqn:E; [|done]. simpl.
  by rewrite (jsonMonth_exact r (jsonExactData_lookup d m r Hexact E)).
Qed.

(** The numbers that the copy keeps are exactly those. *)
Lemma jsonNumber_fixed (v : number) :
  jsonNumber v = v → jsonExactNumber v = true.
Proof.
  destruct v as [|x]; [done|]. simpl.
  destruct (is_finite x); [|discriminate].
  destruct (negZero x) eqn:Hneg; [|done].
  intros [= Hx]. rewrite <- Hx in Hneg. vm_compute in Hneg. discriminate.
Qed.

Lemma jsonExpense_fixed (e : Expense) :
  jsonExpense e = e → jsonExactExpense e = true.
Proof.
  destruct e as [i t a c]. unfold jsonExpense, jsonExactExpense. simpl.
  intros [= Hi Ha]. by rewrite (jsonNumber_fixed i Hi), (jsonNumber_fixed a Ha).
Qed.

Lemma jsonMonth_fixed (m : MonthData) :
  jsonMonth m = m → jsonExactMonth m = true.
Proof.
  destruct m as [i es]. unfold jsonMonth, jsonExactMonth. simpl.
  intros [= Hi Hes]. rewrite (jsonNumber_fixed i Hi). simpl.
  apply forallb_forall. intros e He%list_elem_of_In.
  apply list_elem_of_lookup in He as [k Hk].
  apply jsonExpense_fixed.
  assert (Hk' : (jsonExpense <$> es) !! k = Some (jsonExpense e))
    by (by rewrite list_lookup_fmap, Hk).
  rewrite Hes, Hk in Hk'. by injection Hk'.
Qed.

Lemma jsonCopy_fixed (d : Data) :
  jsonCopy d = d → jsonExactData d = true.
Proof.
  intros Hfix. unfold jsonExactData. apply forallb_forall.
  intros r Hr%list_elem_of_In. apply list_elem_of_fmap in Hr as ([m r'] & -> & Hm).
  apply elem_of_map_to_list in Hm. simpl. apply jsonMonth_fixed.
  assert (Hm' : jsonCopy d !! m = Some (jsonMonth r'))
    by (unfold jsonCopy; by rewrite lookup_fmap, Hm).
  rewrite Hfix, Hm in Hm'. by injection Hm'.
Qed.

Lemma mapM_fmap_total {A B C} (f : B → option C) (g : A → B) (h : A → C)
    (l : list A) :
  (∀ x, f (g x) = Some (h x)) → mapM f (g <$> l) = Some (h <$> l).
Proof.
  intros Hfg. apply mapM_Some_2.
  induction l as [|x l IH]; constructor; [apply Hfg | exact IH].
Qed.

Lemma readNumber_stringify (v : number) :
  readNumber (stringifyNumber v) = Some (jsonNumber v).
Proof.
  destruct v as [|x]; [done|]. simpl.
  destruct (is_finite x); [|done]. by destruct (negZero x).
Qed.

Lemma readExpense_stringify (e : Expense) :
  readExpense (stringifyExpense e) = Some (jsonExpense e).
Proof.
  unfold readExpense, stringifyExpense, jsonExpense. cbn.
  rewrite !readNumber_stringify. done.
Qed.

Lemma readMonth_stringify (m : MonthData) :
  readMonth (stringifyMonth m) = Some (jsonMonth m).
Proof.
  unfold readMonth, stringifyMonth, jsonMonth. cbn.
  rewrite readNumber_stringify. cbn.
  rewrite (mapM_fmap_total readExpense stringifyExpense jsonExpense)
    by apply readExpense_stringify.
  done.
Qed.

Lemma readData_stringify (d : Data) :
  readData (stringifyData d) = Some (jsonCopy d).
Proof.
  unfold readData, stringifyData, jsonCopy.
  rewrite <- fmap_reverse.
  rewrite (mapM_fmap_total _ _ (prod_map Datatypes.id jsonMonth)).
  - simpl. f_equal. rewrite list_to_map_fmap. f_equal.
    rewrite <- (list_to_map_to_list d) at 2.
    apply list_to_map_proper; [|apply reverse_Permutation].
    rewrite fmap_reverse. rewrite (reverse_Permutation _).
    apply NoDup_fst_map_to_list.
  - intros [k r]. cbn [fst snd]. by rewrite readMonth_stringify.
Qed.

Lemma readCategories_stringify (cs : list string) :
  readCategories (stringifyCategories cs) = Some cs.
Proof.
  unfold readCategories, stringifyCategories.
  rewrite (mapM_fmap_total readString JString (λ c, c)) by done.
  by rewrite list_fmap_id.
Qed.

Lemma load_store_data (currentMonth : string) (d : Data) :
  loadData currentMonth (storeData d) = Some (jsonCopy d).
Proof. apply readData_stringify. Qed.

(** The stored dataset is loaded as it was exactly when its numbers are
    numbers that JSON text denotes. *)
Lemma load_store_data_iff (currentMonth : string) (d : Data) :
  loadData currentMonth (storeData d) = Some d ↔ jsonExactData d = true.
Proof.
  rewrite load_store_data. split.
  - intros [= Hfix]. by apply jsonCopy_fixed.
  - intros Hexact. by rewrite (jsonCopy_exact d Hexact).
Qed.

(** C6: storing a dataset whose numbers are all numbers that JSON text
    denotes (finite and not -0, or null) and loading it again gives the same
    dataset: the same month keys with the same records, expenses in the same
    order; storing and loading a category list gives the same list. *)
Theorem C6_persistence_round_trip (currentMonth : string) (d : Data)
    (cs : list string) :
  jsonExactData d = true →
  loadData currentMonth (storeData d) = Some d
  ∧ loadCategories (storeCategories cs) = Some cs.
Proof.
  intros Hexact. split.
  - rewrite load_store_data. by rewrite (jsonCopy_exact d Hexact).
  - apply readCategories_stringify.
Qed.

Lemma C6_persistence_round_trip_witness :
  jsonExactData twoMonths = true
  ∧ loadData "2024-05" (storeData twoMonths) = Some twoMonths
  ∧ loadCategories (storeCategories ["Food"; "Travel"]) = Some ["Food"; "Travel"].
Proof.
  split; [vm_compute; reflexivity|].
  apply (C6_persistence_round_trip "2024-05" twoMonths ["Food"; "Travel"]).
  vm_compute. reflexivity.
Defined.

(** A month whose income is NaN is stored with the income [null], and is
    loaded with the income [null]. *)
Lemma C6_counterexample :
  let d : Data := {[ "2024-05" := {| income := Num nan; expenses := [] |} ]} in
  loadData "2024-05" (storeData d)
  = Some {[ "2024-05" := {| income := null; expenses := [] |} ]}
  ∧ loadData "2024-05" (storeData d) ≠ Some d.
Proof.
  intros d.
  assert (Hload : loadData "2024-05" (storeData d)
          = Some {[ "2024-05" := {| income := null; expenses := [] |} ]}).
  { rewrite load_store_data. unfold jsonCopy, d. by rewrite map_fmap_singleton. }
  split; [exact Hload|]. rewrite Hload. intros Heq.
  apply (f_equal (λ o : option Data, o ≫= (λ m, m !! "2024-05"))) in Heq.
  unfold d in Heq. simpl in Heq. rewrite !lookup_singleton_eq in Heq. discriminate.
Qed.

(** ** Renaming a category *)

Section RenameProperties.
Context `{JSRuntime}.

Lemma rename_when_valid (st : AppState) (old : string) :
  editingCategory st = Some old → old ≠ "" →
  trim (newCategoryInput st) ≠ "" →
  trim (newCategoryInput st) ∉ categories st ∨ trim (newCategoryInput st) = old →
  handleSaveEditedCategory st
  = quiet (clearCategoryEdit
      (setData (λ prev,
         (λ m, {| income := income m;
                  expenses := renameIn old (trim (newCategoryInput st)) <$> expenses m |})
           <$> jsonCopy prev)
         (setCategories
            (λ prev, (λ c, if bool_decide (c = old)
                           then trim (newCategoryInput st) else c) <$> prev)
            st))).
Proof.
  intros Hed Hold Hv Hfree. unfold handleSaveEditedCategory. rewrite Hed.
  rewrite !bool_decide_eq_false_2 by done. simpl.
  destruct Hfree as [Hfresh | Hsame].
  - by rewrite (bool_decide_eq_false_2 _ Hfresh).
  - rewrite (bool_decide_eq_true_2 _ Hsame). simpl. by rewrite andb_false_r.
Qed.

(** What a save that passes the guards does to any dataset: the copy is
    taken first, the rename is applied to the copy. *)
Lemma rename_data_lookup (st : AppState) (old : string) (m : string) :
  editingCategory st = Some old → old ≠ "" →
  trim (newCategoryInput st) ≠ "" →
  trim (newCategoryInput st) ∉ categories st ∨ trim (newCategoryInput st) = old →
  data (next (handleSaveEditedCategory st)) !! m
  = (λ r, {| income := jsonNumber (income r);
             expenses := (λ e, renameIn old (trim (newCategoryInput st)) (jsonExpense e))
                           <$> expenses r |})
      <$> data st !! m.
Proof.
  intros Hed Hold Hv Hfree.
  rewrite (rename_when_valid st old Hed Hold Hv Hfree). simpl.
  unfold jsonCopy. rewrite !lookup_fmap.
  destruct (data st !! m) as [r|]; [|done]. simpl.
  by rewrite <- list_fmap_compose.
Qed.

(** The guard [!editingCategory]: no edit, or an edit of the empty name. *)
Lemma rename_without_target (st : AppState) :
  editingCategory st = None ∨ editingCategory st = Some "" →
  handleSaveEditedCategory st = quiet st.
Proof.
  intros [E | E]; unfold handleSaveEditedCategory; rewrite E; [done|].
  simpl. by rewrite orb_true_r.
Qed.

(** C2: for a non-empty edited name [old], a trimmed input [v] that is not
    empty and is either absent from the category list or [old] itself, and a
    dataset whose numbers are all numbers that JSON text denotes: the save
    raises no alert; the category list keeps its length, has [v] wherever it
    had [old] and every other entry where it was; every month keeps its
    record with the same income and as many expenses, where an expense of
    category [old] has category [v] and its other fields as before, and any
    other expense is as before; no month is added. *)
Theorem C2_rename_cascades (st : AppState) (old : string) :
  editingCategory st = Some old → old ≠ "" →
  trim (newCategoryInput st) ≠ "" →
  trim (newCategoryInput st) ∉ categories st ∨ trim (newCategoryInput st) = old →
  jsonExactData (data st) = true →
  let v := trim (newCategoryInput st) in
  let out := handleSaveEditedCategory st in
  alerted out = None
  ∧ length (categories (next out)) = length (categories st)
  ∧ (∀ i, categories st !! i = Some old → categories (next out) !! i = Some v)
  ∧ (∀ i c, categories st !! i = Some c → c ≠ old →
       categories (next out) !! i = Some c)
  ∧ (∀ m, data st !! m = None → data (next out) !! m = None)
  ∧ (∀ m r, data st !! m = Some r →
       ∃ r', data (next out) !! m = Some r'
         ∧ income r' = income r
         ∧ length (expenses r') = length (expenses r)
         ∧ (∀ i e, expenses r !! i = Some e → category e = old →
              expenses r' !! i
              = Some {| id := id e; title := title e;
                        amount := amount e; category := v |})
         ∧ (∀ i e, expenses r !! i = Some e → category e ≠ old →
              expenses r' !! i = Some e)).
Proof.
  intros Hed Hold Hv Hfree Hexact. simpl.
  rewrite (rename_when_valid st old Hed Hold Hv Hfree). simpl.
  rewrite (jsonCopy_exact _ Hexact).
  split; [done|]. split; [by rewrite length_fmap|].
  split; [|split; [|split]].
  - intros i Hi. rewrite list_lookup_fmap, Hi. simpl.
    by rewrite bool_decide_eq_true_2.
  - intros i c Hi Hne. rewrite list_lookup_fmap, Hi. simpl.
    by rewrite bool_decide_eq_false_2.
  - intros m Hm. by rewrite lookup_fmap, Hm.
  - intros m r Hm. rewrite lookup_fmap, Hm. simpl. eexists. split; [done|]. simpl.
    split; [done|]. split; [by rewrite length_fmap|]. split.
    + intros i e Hi Hc. rewrite list_lookup_fmap, Hi. simpl.
      unfold renameIn. by rewrite bool_decide_eq_true_2.
    + intros i e Hi Hc. rewrite list_lookup_fmap, Hi. simpl.
      unfold renameIn. by rewrite bool_decide_eq_false_2.
Qed.

End RenameProperties.

(** ** Closed instances *)

(** Renaming "Food" to "Groceries" (typed with blanks around it) with
    expenses of "Food" in April and in May. *)
Lemma C2_rename_cascades_witness :
  let st := formState twoMonths "2024-05" "" "" "Food" null " Groceries " (Some "Food") in
  let out := @handleSaveEditedCategory exampleRuntime st in
  alerted out = None
  ∧ categories (next out) !! 0 = Some "Groceries"
  ∧ categories (next out) !! 1 = Some "Travel"
  ∧ (∃ r', data (next out) !! "2024-04" = Some r'
       ∧ income r' = Num 4000
       ∧ expenses r' !! 0 = Some (expense 3 "Dinner" 80 "Groceries"))
  ∧ (∃ r', data (next out) !! "2024-05" = Some r'
       ∧ expenses r' !! 0 = Some (expense 1 "Rent" 1200 "Bills")
       ∧ expenses r' !! 1 = Some (expense 2 "Lunch" 300 "Groceries")).
Proof.
  intros st out.
  destruct (@C2_rename_cascades exampleRuntime st "Food")
    as (Hquiet & _ & Hold & Hkept & _ & Hdata).
  - reflexivity.
  - discriminate.
  - vm_compute. discriminate.
  - left. apply (bool_decide_unpack _). vm_compute. reflexivity.
  - vm_compute. reflexivity.
  - split; [exact Hquiet|].
    split; [exact (Hold 0 eq_refl)|].
    split; [apply (Hkept 1 "Travel" eq_refl); discriminate|].
    split.
    + destruct (Hdata "2024-04"
                  {| income := Num 4000; expenses := [expense 3 "Dinner" 80 "Food"] |})
        as (r' & Hr' & Hinc & _ & Hyes & _); [vm_compute; reflexivity|].
      exists r'. split; [exact Hr'|]. split; [exact Hinc|].
      exact (Hyes 0 (expense 3 "Dinner" 80 "Food") eq_refl eq_refl).
    + destruct (Hdata "2024-05"
                  {| income := Num 5000;
                     expenses := [expense 1 "Rent" 1200 "Bills";
                                  expense 2 "Lunch" 300 "Food"] |})
        as (r' & Hr' & _ & _ & Hyes & Hno); [vm_compute; reflexivity|].
      exists r'. split; [exact Hr'|]. split.
      * apply (Hno 0 (expense 1 "Rent" 1200 "Bills") eq_refl). discriminate.
      * exact (Hyes 1 (expense 2 "Lunch" 300 "Food") eq_refl eq_refl).
Defined.

(** Two renames that do not go as the specification says.  With a "Travel" expense
    whose amount is NaN, renaming "Food" to "Groceries" leaves that expense
    with the amount [null].  With the empty string as the edited name, the
    save returns at the guard and the category list keeps the empty name. *)
Lemma C2_counterexample :
  let trip := {| id := Num 7; title := "Trip"; amount := Num nan; category := "Travel" |} in
  let d : Data := {[ "2024-05" := {| income := Num 5000; expenses := [trip] |} ]} in
  let st := formState d "2024-05" "" "" "Food" null "Groceries" (Some "Food") in
  let out := @handleSaveEditedCategory exampleRuntime st in
  let st0 := setCategories (λ _, [""; "Food"])
               (formState d "2024-05" "" "" "Food" null "Misc" (Some "")) in
  let out0 := @handleSaveEditedCategory exampleRuntime st0 in
  (expenses <$> data st !! "2024-05") = Some [trip]
  ∧ (expenses <$> data (next out) !! "2024-05")
    = Some [{| id := Num 7; title := "Trip"; amount := null; category := "Travel" |}]
  ∧ (expenses <$> data (next out) !! "2024-05") ≠ (expenses <$> data st !! "2024-05")
  ∧ categories st0 = [""; "Food"]
  ∧ categories (next out0) = [""; "Food"].
Proof.
  intros trip d st out st0 out0.
  assert (Hbefore : (expenses <$> data st !! "2024-05") = Some [trip]).
  { vm_compute. reflexivity. }
  assert (Hafter : (expenses <$> data (next out) !! "2024-05")
            = Some [{| id := Num 7; title := "Trip"; amount := null; category := "Travel" |}]).
  { vm_compute. reflexivity. }
  split; [exact Hbefore|]. split; [exact Hafter|]. split.
  - rewrite Hbefore, Hafter. unfold trip. intros Heq. discriminate.
  - split; vm_compute; reflexivity.
Qed.

Lemma C7_categories_stay_distinct_witness :
  let st := formState twoMonths "2024-05" "" "" "Food" null "Health" (Some "Food") in
  NoDup (categories st)
  ∧ NoDup (categories (next (@handleAddCategory exampleRuntime st)))
  ∧ NoDup (categories (next (@handleSaveEditedCategory exampleRuntime st)))
  ∧ NoDup (categories (next (handleDeleteCategory "Travel" st))).
Proof.
  intros st.
  assert (Hnd : NoDup (categories st)).
  { apply (bool_decide_unpack _). vm_compute. reflexivity. }
  split; [exact Hnd|].
  exact (@C7_categories_stay_distinct exampleRuntime st "Travel" Hnd).
Defined.

(** Editing the lunch (id 2) of May into a brunch of 450. *)
Lemma C8_edit_updates_in_place_witness :
  let st := formState twoMonths "2024-05" "Brunch" "450" "Food" (Num 2) "" None in
  let st' := @handleAddOrUpdateExpense exampleRuntime 99 st in
  ∃ r', data st' !! "2024-05" = Some r'
    ∧ income r' = Num 5000
    ∧ length (expenses r') = 2
    ∧ expenses r' !! 0 = Some (expense 1 "Rent" 1200 "Bills")
    ∧ expenses r' !! 1 = Some (expense 2 "Brunch" 450 "Food").
Proof.
  intros st st'.
  destruct (@C8_edit_updates_in_place exampleRuntime 99 st)
    as (r' & Hr' & Hinc & Hlen & Hyes & Hno & _).
  - vm_compute. reflexivity.
  - discriminate.
  - discriminate.
  - discriminate.
  - exists r'. split; [exact Hr'|]. split; [exact Hinc|]. split; [exact Hlen|].
    split.
    + apply (Hno 0 (expense 1 "Rent" 1200 "Bills") eq_refl). vm_compute. reflexivity.
    + apply (Hyes 1 (expense 2 "Lunch" 300 "Food") eq_refl). vm_compute. reflexivity.
Defined.

(** A submission without an amount. *)
Lemma C9_submit_with_empty_field_is_noop_witness :
  let st := formState twoMonths "2024-05" "Brunch" "" "Food" null "" None in
  (expTitle st = "" ∨ expAmount st = "" ∨ expCategory st = "")
  ∧ @handleAddOrUpdateExpense exampleRuntime 99 st = st.
Proof.
  intros st.
  assert (Hempty : expTitle st = "" ∨ expAmount st = "" ∨ expCategory st = "").
  { right. left. reflexivity. }
  split; [exact Hempty|].
  exact (@C9_submit_with_empty_field_is_noop exampleRuntime 99 st Hempty).
Defined.

(** June has no record in [twoMonths]. *)
Lemma C10_missing_month_is_materialized_witness :
  let st := setIncomeInput 2500 (formState twoMonths "2024-06" "" "" "Food" null "" None) in
  data st !! "2024-06" = None
  ∧ data (handleDeleteExpense (Num 1) st) !! "2024-06" = Some emptyMonth
  ∧ data (handleSaveIncome st) !! "2024-06"
    = Some {| income := Num 2500; expenses := [] |}
  ∧ data (handleDeleteExpense (Num 1) st) !! "2024-05" = data st !! "2024-05".
Proof.
  intros st.
  assert (Hnone : data st !! selectedMonth st = None).
  { vm_compute. reflexivity. }
  destruct (C10_missing_month_is_materialized (Num 1) st Hnone)
    as (Hdel & Hsave & _ & _ & Hother).
  split; [exact Hnone|]. split; [exact Hdel|]. split; [exact Hsave|].
  apply (Hother "2024-05"). discriminate.
Defined.

(** The amount is guarded as a text: "0" is not empty, so an expense of
    amount 0 is appended. *)
Example submit_amount_zero :
  let st := formState twoMonths "2024-04" "Gift" "0" "Shopping" null "" None in
  (expenses <$> data (@handleAddOrUpdateExpense exampleRuntime 99 st) !! "2024-04")
  = Some [expense 3 "Dinner" 80 "Food"; expense 99 "Gift" 0 "Shopping"].
Proof. vm_compute. reflexivity. Qed.

(** The chart example: two categories, one expense of 100 in the first. *)
Example chart_zero_bucket :
  let d : Data := {[ "2024-05" := {| income := Num 0;
                                      expenses := [expense 1 "Lunch" 100 "Food"] |} ]} in
  chartData (setCategories (λ _, ["Food"; "Travel"])
               (formState d "2024-05" "" "" "Food" null "" None))
  = [{| name := "Food"; value := 100 |}; {| name := "Travel"; value := 0 |}].
Proof. vm_compute. reflexivity. Qed.

(** Deleting a category: "Food" is carried by expenses, "Travel" is not. *)
Example delete_category_examples :
  alerted (handleDeleteCategory "Food" mayState)
  = Some "Cannot delete category with existing expenses."
  ∧ next (handleDeleteCategory "Food" mayState) = mayState
  ∧ alerted (handleDeleteCategory "Travel" mayState) = None
  ∧ categories (next (handleDeleteCategory "Travel" mayState))
    = ["Food"; "Shopping"; "Bills"].
Proof. repeat split; vm_compute; reflexivity. Qed.

(** Selecting June, then June again, then May. *)
Example select_month_examples :
  data (selectMonth "2024-06" mayState) !! "2024-06" = Some emptyMonth
  ∧ data (selectMonth "2024-06" mayState) !! "2024-05" = twoMonths !! "2024-05"
  ∧ selectMonth "2024-06" (selectMonth "2024-06" mayState) = selectMonth "2024-06" mayState
  ∧ data (selectMonth "2024-05" mayState) = twoMonths.
Proof. repeat split; vm_compute; reflexivity. Qed.

(** * Further properties of the handlers *)

(** ** Adding and deleting expenses *)

Section MoreExpenseProperties.
Context `{JSRuntime}.

Lemma truthy_strictEq_refl (v : number) : truthy v = true → strictEq v v = true.
Proof.
  destruct v as [|x]; [done|]. simpl. intros Ht.
  apply negb_true_iff, orb_false_iff in Ht as [_ Hnan].
  unfold is_nan in Hnan. by apply negb_false_iff in Hnan.
Qed.

Lemma submit_guard_stops (now : float) (st : AppState) :
  expTitle st = "" → handleAddOrUpdateExpense now st = st.
Proof. intros E. unfold handleAddOrUpdateExpense. by rewrite E. Qed.

Lemma monthExpenses_insert (st st' : AppState) (r : MonthData) :
  selectedMonth st' = selectedMonth st →
  data st' !! selectedMonth st = Some r →
  monthExpenses st' = expenses r.
Proof. intros Hsel Hr. unfold monthExpenses. by rewrite Hsel, Hr. Qed.

(** X1: with no active edit target, a submission that passes the guard
    appends one expense, built from [Date.now()] and the form fields, after
    the expenses of the selected month; the income of the month and the
    other months are kept, and the total grows by the submitted amount. *)
Theorem submit_appends_expense (now : float) (st : AppState) :
  truthy (editingExpId st) = false →
  expTitle st ≠ "" → expAmount st ≠ "" → expCategory st ≠ "" →
  let st' := handleAddOrUpdateExpense now st in
  let added := {| id := Num now; title := expTitle st;
                  amount := Num (Number (expAmount st));
                  category := expCategory st |} in
  monthExpenses st' = (monthExpenses st ++ [added])%list
  ∧ (income <$> data st' !! selectedMonth st)
    = Some (income (monthOrEmpty (data st) (selectedMonth st)))
  ∧ (∀ m, m ≠ selectedMonth st → data st' !! m = data st !! m)
  ∧ totalExpense st' = (totalExpense st + Number (expAmount st))%float.
Proof.
  intros Hidle Ht Ha Hc. simpl.
  assert (Hexp : monthExpenses (handleAddOrUpdateExpense now st)
            = (monthExpenses st
               ++ [{| id := Num now; title := expTitle st;
                      amount := Num (Number (expAmount st));
                      category := expCategory st |}])%list).
  { rewrite submit_guard_passes by done. unfold monthExpenses at 1. simpl.
    rewrite Hidle, lookup_insert_eq. simpl.
    by rewrite monthExpenses_monthOrEmpty. }
  split; [exact Hexp|]. split; [|split].
  - rewrite submit_guard_passes by done. simpl.
    by rewrite Hidle, lookup_insert_eq.
  - intros m Hm. rewrite submit_guard_passes by done. simpl.
    rewrite Hidle. by rewrite lookup_insert_ne.
  - unfold totalExpense. rewrite Hexp. by rewrite sumAmounts_snoc.
Qed.

(** X2: a submission leaves a state on which a second submission does
    nothing: the form is cleared, so the guard stops it. *)
Theorem submit_twice_is_submit_once (now now' : float) (st : AppState) :
  handleAddOrUpdateExpense now' (handleAddOrUpdateExpense now st)
  = handleAddOrUpdateExpense now st.
Proof.
  destruct (bool_decide (expTitle st = "") || bool_decide (expAmount st = "")
            || bool_decide (expCategory st = "")) eqn:Hguard.
  - assert (Hstop : ∀ t, handleAddOrUpdateExpense t st = st).
    { intros t. unfold handleAddOrUpdateExpense. by rewrite Hguard. }
    by rewrite !Hstop.
  - apply submit_guard_stops. unfold handleAddOrUpdateExpense. by rewrite Hguard.
Qed.

(** X3: deleting by id keeps, in their order, exactly the expenses of the
    selected month whose id differs ([!==]) from the given one, keeps the
    income and the other months, and is the identity when repeated. *)
Theorem delete_expense_removes_by_id (i : number) (st : AppState) :
  let st' := handleDeleteExpense i st in
  (∀ e, e ∈ monthExpenses st' ↔ e ∈ monthExpenses st ∧ strictEq (id e) i = false)
  ∧ monthExpenses st' `sublist_of` monthExpenses st
  ∧ (income <$> data st' !! selectedMonth st)
    = Some (income (monthOrEmpty (data st) (selectedMonth st)))
  ∧ (∀ m, m ≠ selectedMonth st → data st' !! m = data st !! m)
  ∧ handleDeleteExpense i st' = st'.
Proof.
  simpl.
  assert (Hexp : monthExpenses (handleDeleteExpense i st)
            = filter (λ e, strictEq (id e) i = false) (monthExpenses st)).
  { unfold monthExpenses at 1. unfold handleDeleteExpense. simpl.
    rewrite lookup_insert_eq. simpl. by rewrite monthExpenses_monthOrEmpty. }
  split; [|split; [|split; [|split]]].
  - intros e. rewrite Hexp, list_elem_of_filter. tauto.
  - rewrite Hexp. apply sublist_filter.
  - unfold handleDeleteExpense. simpl. by rewrite lookup_insert_eq.
  - intros m Hm. unfold handleDeleteExpense. simpl. by rewrite lookup_insert_ne.
  - unfold handleDeleteExpense at 1. unfold setData. simpl.
    unfold monthOrEmpty. rewrite lookup_insert_eq. simpl.
    rewrite insert_insert_eq.
    rewrite list_filter_filter.
    rewrite (list_filter_iff _ (λ e, strictEq (id e) i = false)) by tauto.
    done.
Qed.

(** X4: when the selected month has a record and none of its expenses has
    the given id, deleting leaves the dataset as it was. *)
Theorem delete_absent_expense_is_noop (i : number) (st : AppState) (r : MonthData) :
  data st !! selectedMonth st = Some r →
  (∀ e, e ∈ expenses r → strictEq (id e) i = false) →
  data (handleDeleteExpense i st) = data st.
Proof.
  intros Hr Hnone. unfold handleDeleteExpense, setData, monthOrEmpty.
  rewrite Hr. simpl.
  assert (Hf : filter (λ e, strictEq (id e) i = false) (expenses r) = expenses r).
  { clear Hr. induction (expenses r) as [|e l IH]; [done|].
    rewrite filter_cons_True by (apply Hnone; left).
    f_equal. apply IH. intros e' He'. apply Hnone. by right. }
  rewrite Hf.
  assert (Hr' : {| income := income r; expenses := expenses r |} = r) by by destruct r.
  by rewrite Hr', (insert_id _ _ _ Hr).
Qed.

(** X5: an expense added under an id that is a number equal to itself and
    differs from the ids already in the month is removed again by deleting
    that id: the month's expenses are the ones before the addition. *)
Theorem add_then_delete_expense (now : float) (st : AppState) :
  truthy (editingExpId st) = false →
  expTitle st ≠ "" → expAmount st ≠ "" → expCategory st ≠ "" →
  (now =? now)%float = true →
  (∀ e, e ∈ monthExpenses st → strictEq (id e) (Num now) = false) →
  monthExpenses (handleDeleteExpense (Num now) (handleAddOrUpdateExpense now st))
  = monthExpenses st.
Proof.
  intros Hidle Ht Ha Hc Hnow Hfresh.
  rewrite submit_guard_passes by done.
  unfold monthExpenses at 1. unfold handleDeleteExpense. simpl.
  rewrite Hidle. rewrite lookup_insert_eq. simpl.
  unfold monthOrEmpty at 1. rewrite lookup_insert_eq. simpl.
  rewrite filter_app.
  rewrite (filter_singleton_False _ _ []).
  2:{ simpl. by rewrite Hnow. }
  rewrite app_nil_r, <- monthExpenses_monthOrEmpty.
  induction (monthExpenses st) as [|e l IH]; [done|].
  rewrite filter_cons_True by (apply Hfresh; left).
  f_equal. apply IH. intros e' He'. apply Hfresh. by right.
Qed.

End MoreExpenseProperties.

(** ** Saving the income *)

(** X6: saving the income replaces the income of the selected month by the
    number in the income field and keeps that month's expenses and the
    other months; the total and the chart are the ones before.  Once the
    income effect has run on the saved dataset, a second save stores the
    field as [incomeInput || 0]: it leaves the dataset as the first save
    left it when the saved number is truthy. *)
Theorem save_income_keeps_expenses (st : AppState) :
  let st' := handleSaveIncome st in
  (income <$> data st' !! selectedMonth st) = Some (Num (incomeInput st))
  ∧ monthExpenses st' = monthExpenses st
  ∧ (∀ m, m ≠ selectedMonth st → data st' !! m = data st !! m)
  ∧ totalExpense st' = totalExpense st
  ∧ chartData st' = chartData st
  ∧ data (handleSaveIncome (syncIncomeInput st'))
    = <[selectedMonth st :=
          {| income := Num (orZero (Num (incomeInput st)));
             expenses := monthExpenses st |}]> (data st)
  ∧ (truthy (Num (incomeInput st)) = true →
       data (handleSaveIncome (syncIncomeInput st')) = data st').
Proof.
  intros st'.
  assert (Hexp : monthExpenses st' = monthExpenses st).
  { unfold monthExpenses at 1. unfold st', handleSaveIncome. simpl.
    rewrite lookup_insert_eq. simpl. by rewrite monthExpenses_monthOrEmpty. }
  assert (Hagain : data (handleSaveIncome (syncIncomeInput st'))
            = <[selectedMonth st :=
                  {| income := Num (orZero (Num (incomeInput st)));
                     expenses := monthExpenses st |}]> (data st)).
  { unfold st', handleSaveIncome, syncIncomeInput, setData, setIncomeInput. simpl.
    unfold monthOrEmpty. rewrite !lookup_insert_eq. simpl.
    rewrite insert_insert_eq. by rewrite monthExpenses_monthOrEmpty. }
  split; [|split; [|split; [|split; [|split; [|split]]]]].
  - unfold st', handleSaveIncome. simpl. by rewrite lookup_insert_eq.
  - exact Hexp.
  - intros m Hm. unfold st', handleSaveIncome. simpl. by rewrite lookup_insert_ne.
  - unfold totalExpense. by rewrite Hexp.
  - unfold chartData. by rewrite Hexp.
  - exact Hagain.
  - intros Ht. rewrite Hagain. unfold orZero. rewrite Ht.
    unfold st', handleSaveIncome. simpl. by rewrite monthExpenses_monthOrEmpty.
Qed.

(** X7: selecting a month that has a record and saving the income at once
    stores the income again as [income || 0]: a truthy income is kept and
    the dataset is the one before; a falsy income ([-0], NaN, [null]) is
    replaced by 0. *)
Theorem select_then_save_income (m : string) (st : AppState) (r : MonthData) :
  data st !! m = Some r →
  data (handleSaveIncome (selectMonth m st))
  = <[m := {| income := Num (orZero (income r)); expenses := expenses r |}]> (data st)
  ∧ (truthy (income r) = true →
       data (handleSaveIncome (selectMonth m st)) = data st).
Proof.
  intros Hr.
  assert (Hsel : ensureMonth (setSelectedMonth m st) = setSelectedMonth m st).
  { apply ensureMonth_present. simpl. rewrite Hr. eauto. }
  assert (Hdata : data (handleSaveIncome (selectMonth m st))
            = <[m := {| income := Num (orZero (income r)); expenses := expenses r |}]>
                (data st)).
  { unfold selectMonth. rewrite Hsel.
    unfold handleSaveIncome, syncIncomeInput, monthOrEmpty. simpl. by rewrite Hr. }
  split; [exact Hdata|].
  intros Ht. rewrite Hdata. apply insert_id. rewrite Hr. f_equal.
  destruct r as [[|x] es]; [done|]. unfold orZero. simpl in *. by rewrite Ht.
Qed.

(** ** Categories *)

Section MoreCategoryProperties.
Context `{JSRuntime}.

(** X8: adding a category alerts exactly when the trimmed input is not empty
    and already in the list; with an empty or known name the state is the
    one before; otherwise the name is appended after the existing entries,
    the input is cleared and the dataset is kept. *)
Theorem add_category_appends_or_rejects (st : AppState) :
  let v := trim (newCategoryInput st) in
  let out := handleAddCategory st in
  (is_Some (alerted out) ↔ v ≠ "" ∧ v ∈ categories st)
  ∧ (v = "" ∨ v ∈ categories st → next out = st)
  ∧ (v ≠ "" ∧ v ∉ categories st →
       categories (next out) = (categories st ++ [v])%list
       ∧ newCategoryInput (next out) = ""
       ∧ data (next out) = data st
       ∧ editingCategory (next out) = editingCategory st).
Proof.
  simpl. unfold handleAddCategory.
  destruct (bool_decide (trim (newCategoryInput st) = "")) eqn:He.
  - apply bool_decide_eq_true in He. simpl. split; [|split].
    + split; [by intros [? ?] | by intros [? _]].
    + done.
    + by intros [? _].
  - apply bool_decide_eq_false in He.
    destruct (bool_decide (trim (newCategoryInput st) ∈ categories st)) eqn:Hin.
    + apply bool_decide_eq_true in Hin. simpl. split; [|split].
      * split; [done | eauto].
      * done.
      * by intros [_ ?].
    + apply bool_decide_eq_false in Hin. simpl. split; [|split].
      * split; [by intros [? ?] | by intros [_ ?]].
      * by intros [? | ?].
      * done.
Qed.

(** X9: saving an edited category alerts exactly when the edited name and
    the trimmed input are not empty and the input is another name of the
    list; an alerting save, a save without an edited name and a save with an
    empty input leave the state as it was. *)
Theorem rename_rejects_used_name (st : AppState) :
  let v := trim (newCategoryInput st) in
  let out := handleSaveEditedCategory st in
  (is_Some (alerted out)
   ↔ ∃ old, editingCategory st = Some old
       ∧ old ≠ "" ∧ v ≠ "" ∧ v ∈ categories st ∧ v ≠ old)
  ∧ (is_Some (alerted out) → next out = st)
  ∧ (editingCategory st = None ∨ editingCategory st = Some "" ∨ v = "" →
       out = quiet st).
Proof.
  simpl. unfold handleSaveEditedCategory.
  destruct (editingCategory st) as [old|] eqn:Hed.
  - destruct (bool_decide (trim (newCategoryInput st) = "")) eqn:Hv;
      [apply bool_decide_eq_true in Hv | apply bool_decide_eq_false in Hv];
      destruct (bool_decide (old = "")) eqn:Hold;
      [apply bool_decide_eq_true in Hold | apply bool_decide_eq_false in Hold
      |apply bool_decide_eq_true in Hold | apply bool_decide_eq_false in Hold];
      simpl.
    + split; [|done]. split; [by intros [? ?] | by intros (o & _ & _ & ? & _)].
    + split; [|done]. split; [by intros [? ?] | by intros (o & _ & _ & ? & _)].
    + split; [|done].
      split; [by intros [? ?] | intros (o & [= <-] & ? & _); done].
    + destruct (bool_decide (trim (newCategoryInput st) ∈ categories st)) eqn:Hin;
        [apply bool_decide_eq_true in Hin | apply bool_decide_eq_false in Hin];
        destruct (bool_decide (trim (newCategoryInput st) = old)) eqn:Heq;
        [apply bool_decide_eq_true in Heq | apply bool_decide_eq_false in Heq
        |apply bool_decide_eq_true in Heq | apply bool_decide_eq_false in Heq];
        simpl.
      * split; [|split].
        -- split; [by intros [? ?] | intros (o & [= <-] & _ & _ & _ & ?); done].
        -- by intros [? ?].
        -- intros [? | [[= ?] | ?]]; done.
      * split; [|split].
        -- split; [intros _; exists old; done | eauto].
        -- done.
        -- intros [? | [[= ?] | ?]]; done.
      * split; [|split].
        -- split; [by intros [? ?] | intros (o & _ & _ & _ & ? & _); done].
        -- by intros [? ?].
        -- intros [? | [[= ?] | ?]]; done.
      * split; [|split].
        -- split; [by intros [? ?] | intros (o & _ & _ & _ & ? & _); done].
        -- by intros [? ?].
        -- intros [? | [[= ?] | ?]]; done.
  - split; [|done]. split; [by intros [? ?] | by intros (o & ? & _)].
Qed.

Lemma rename_target (old v : string) (c : string) :
  v ≠ old → (if bool_decide (c = old) then v else c) ≠ old.
Proof. intros Hne. by case_bool_decide. Qed.

(** X10: after a save that renames [old] to another name absent from the
    list, [old] is neither in the category list nor on any expense of any
    month. *)
Theorem rename_leaves_no_reference (st : AppState) (old : string) :
  editingCategory st = Some old → old ≠ "" →
  trim (newCategoryInput st) ≠ "" →
  trim (newCategoryInput st) ∉ categories st →
  trim (newCategoryInput st) ≠ old →
  let out := handleSaveEditedCategory st in
  (old ∉ categories (next out))
  ∧ categoryUsed old (data (next out)) = false
  ∧ (∀ m r e, data (next out) !! m = Some r → e ∈ expenses r → category e ≠ old).
Proof.
  intros Hed Hold Hv Hfresh Hne. simpl.
  assert (Hno : ∀ m r e, data (next (handleSaveEditedCategory st)) !! m = Some r →
            e ∈ expenses r → category e ≠ old).
  { intros m r e Hm He.
    rewrite (rename_data_lookup st old m Hed Hold Hv (or_introl Hfresh)) in Hm.
    destruct (data st !! m) as [r0|]; [|done]. simpl in Hm.
    injection Hm as <-. simpl in He.
    apply list_elem_of_fmap in He as (e0 & -> & _).
    unfold renameIn. by case_bool_decide. }
  split; [|split; [|exact Hno]].
  - rewrite (rename_when_valid st old Hed Hold Hv (or_introl Hfresh)). simpl.
    intros (c & Hc & _)%list_elem_of_fmap.
    by apply (rename_target old _ c Hne).
  - apply not_true_is_false. intros Hused.
    apply categoryUsed_spec in Hused as (m & r & e & Hm & He & Hc).
    by apply (Hno m r e).
Qed.

End MoreCategoryProperties.

(** ** What the handlers keep *)

Lemma referencedb_spec (st : AppState) : referencedb st = true ↔ referenced st.
Proof.
  unfold referencedb, referenced. rewrite forallb_forall. split.
  - intros Hall m r e Hm He.
    assert (Hr : In r (snd <$> map_to_list (data st))).
    { apply list_elem_of_In, list_elem_of_fmap. exists (m, r).
      split; [done|]. by apply elem_of_map_to_list. }
    specialize (Hall r Hr). rewrite forallb_forall in Hall.
    eapply bool_decide_eq_true_1, Hall. by apply list_elem_of_In.
  - intros Href r Hr%list_elem_of_In.
    apply list_elem_of_fmap in Hr as ([m r'] & -> & Hm).
    apply elem_of_map_to_list in Hm. simpl.
    apply forallb_forall. intros e He%list_elem_of_In.
    apply bool_decide_eq_true_2. by apply (Href m r').
Qed.

Section Preservation.
Context `{JSRuntime}.

(** X11: if every expense carries a category of the list, it still does
    after adding, renaming or deleting a category, after deleting an
    expense, after saving the income and after selecting a month. *)
Theorem references_are_preserved (st : AppState) (cat m : string) (i : number) :
  referenced st →
  referenced (next (handleAddCategory st))
  ∧ referenced (next (handleSaveEditedCategory st))
  ∧ referenced (next (handleDeleteCategory cat st))
  ∧ referenced (handleDeleteExpense i st)
  ∧ referenced (handleSaveIncome st)
  ∧ referenced (selectMonth m st).
Proof.
  intros Href. split; [|split; [|split; [|split; [|split]]]].
  - unfold handleAddCategory.
    case_bool_decide; [done|]. case_bool_decide; [done|]. simpl.
    intros k r e Hk He. simpl in *. apply elem_of_app. left. by apply (Href k r).
  - unfold handleSaveEditedCategory.
    destruct (editingCategory st) as [old|]; [|done].
    destruct (_ || _); [done|]. destruct (_ && _); [done|]. simpl.
    intros k r e Hk He. simpl in *.
    unfold jsonCopy in Hk. rewrite !lookup_fmap in Hk.
    destruct (data st !! k) as [r0|] eqn:Hr0; [|done]. simpl in Hk.
    injection Hk as <-. simpl in He.
    apply list_elem_of_fmap in He as (e1 & -> & He1).
    apply list_elem_of_fmap in He1 as (e0 & -> & He0).
    pose proof (Href k r0 e0 Hr0 He0) as Hc0.
    apply list_elem_of_fmap. exists (category e0). split; [|done].
    unfold renameIn. simpl. by case_bool_decide.
  - unfold handleDeleteCategory.
    destruct (categoryUsed cat (data st)) eqn:Hused; [done|].
    assert (Hkeep : ∀ k r e, data st !! k = Some r → e ∈ expenses r →
              category e ∈ filter (λ c, c ≠ cat) (categories st)).
    { intros k r e Hk He. apply list_elem_of_filter. split; [|by apply (Href k r)].
      intros Hc. apply not_true_iff_false in Hused. apply Hused.
      apply categoryUsed_spec. by exists k, r, e. }
    destruct (bool_decide _); exact Hkeep.
  - intros k r e Hk He. unfold handleDeleteExpense in Hk. simpl in *.
    destruct (decide (k = selectedMonth st)) as [->|Hne].
    + rewrite lookup_insert_eq in Hk. injection Hk as <-. simpl in He.
      apply list_elem_of_filter in He as [_ He].
      unfold monthOrEmpty in He.
      destruct (data st !! selectedMonth st) as [r0|] eqn:Hr0; simpl in He.
      * by apply (Href (selectedMonth st) r0).
      * by apply elem_of_nil in He.
    + rewrite lookup_insert_ne in Hk by done. by apply (Href k r).
  - intros k r e Hk He. unfold handleSaveIncome in Hk. simpl in *.
    destruct (decide (k = selectedMonth st)) as [->|Hne].
    + rewrite lookup_insert_eq in Hk. injection Hk as <-. simpl in He.
      unfold monthOrEmpty in He.
      destruct (data st !! selectedMonth st) as [r0|] eqn:Hr0; simpl in He.
      * by apply (Href (selectedMonth st) r0).
      * by apply elem_of_nil in He.
    + rewrite lookup_insert_ne in Hk by done. by apply (Href k r).
  - assert (Hcats : categories (selectMonth m st) = categories st).
    { unfold selectMonth, ensureMonth. simpl. by destruct (data st !! m). }
    intros k r e Hk He. rewrite Hcats.
    unfold selectMonth, ensureMonth in Hk. simpl in Hk.
    destruct (data st !! m) as [r0|] eqn:Hr0; simpl in Hk.
    + by apply (Href k r).
    + destruct (decide (k = m)) as [->|Hne].
      * rewrite lookup_insert_eq in Hk. injection Hk as <-.
        by apply elem_of_nil in He.
      * rewrite lookup_insert_ne in Hk by done. by apply (Href k r).
Qed.

(** X12: a submission whose category field holds a category of the list
    keeps every expense on a category of the list. *)
Theorem submit_keeps_references (now : float) (st : AppState) :
  referenced st → expCategory st ∈ categories st →
  referenced (handleAddOrUpdateExpense now st).
Proof.
  intros Href Hcat. unfold handleAddOrUpdateExpense.
  destruct (_ || _); [done|].
  intros k r e Hk He. simpl in *.
  assert (Hold : ∀ e0, e0 ∈ expenses (monthOrEmpty (data st) (selectedMonth st)) →
            category e0 ∈ categories st).
  { intros e0 He0. unfold monthOrEmpty in He0.
    destruct (data st !! selectedMonth st) as [r0|] eqn:Hr0; simpl in He0.
    - by apply (Href (selectedMonth st) r0).
    - by apply elem_of_nil in He0. }
  destruct (truthy (editingExpId st)).
  - destruct (decide (k = selectedMonth st)) as [->|Hne].
    + rewrite lookup_insert_eq in Hk. injection Hk as <-. simpl in He.
      apply list_elem_of_fmap in He as (e0 & -> & He0).
      destruct (strictEq (id e0) (editingExpId st)); [done|]. by apply Hold.
    + rewrite lookup_insert_ne in Hk by done. by apply (Href k r).
  - destruct (decide (k = selectedMonth st)) as [->|Hne].
    + rewrite lookup_insert_eq in Hk. injection Hk as <-. simpl in He.
      apply elem_of_app in He as [He | ->%list_elem_of_singleton]; [|done].
      by apply Hold.
    + rewrite lookup_insert_ne in Hk by done. by apply (Href k r).
Qed.

(** X13: no handler and no selection removes a month: a month that has a
    record still has one afterwards. *)
Theorem months_are_never_removed (st : AppState) (k cat m : string)
    (now : float) (i : number) :
  is_Some (data st !! k) →
  is_Some (data (handleSaveIncome st) !! k)
  ∧ is_Some (data (handleAddOrUpdateExpense now st) !! k)
  ∧ is_Some (data (handleDeleteExpense i st) !! k)
  ∧ is_Some (data (next (handleAddCategory st)) !! k)
  ∧ is_Some (data (next (handleSaveEditedCategory st)) !! k)
  ∧ is_Some (data (next (handleDeleteCategory cat st)) !! k)
  ∧ is_Some (data (selectMonth m st) !! k).
Proof.
  intros Hk.
  assert (Hins : ∀ j (r : MonthData), is_Some (<[j := r]> (data st) !! k)).
  { intros j r. apply lookup_insert_is_Some'. by right. }
  split; [|split; [|split; [|split; [|split; [|split]]]]].
  - apply Hins.
  - unfold handleAddOrUpdateExpense. destruct (_ || _); [done|]. simpl.
    destruct (truthy _); apply Hins.
  - apply Hins.
  - unfold handleAddCategory. case_bool_decide; [done|]. by case_bool_decide.
  - unfold handleSaveEditedCategory.
    destruct (editingCategory st) as [old|]; [|done].
    destruct (_ || _); [done|]. destruct (_ && _); [done|]. simpl.
    unfold jsonCopy. rewrite !lookup_fmap. destruct Hk as [r ->]. simpl. eauto.
  - unfold handleDeleteCategory. destruct (categoryUsed _ _); [done|].
    by destruct (bool_decide _).
  - unfold selectMonth, ensureMonth. simpl.
    destruct (data st !! m); simpl; [done | apply Hins].
Qed.


End Preservation.

(** ** Storing, loading and copying *)

Lemma jsonNumber_is_exact (v : number) : jsonExactNumber (jsonNumber v) = true.
Proof.
  destruct v as [|x]; [done|]. simpl.
  destruct (is_finite x) eqn:Hfin; [|done].
  destruct (negZero x) eqn:Hneg; simpl; [done|]. by rewrite Hfin, Hneg.
Qed.

Lemma jsonNumber_idem (v : number) : jsonNumber (jsonNumber v) = jsonNumber v.
Proof. apply jsonNumber_exact, jsonNumber_is_exact. Qed.

Lemma jsonExpense_idem (e : Expense) : jsonExpense (jsonExpense e) = jsonExpense e.
Proof. unfold jsonExpense. simpl. by rewrite !jsonNumber_idem. Qed.

Lemma jsonMonth_idem (r : MonthData) : jsonMonth (jsonMonth r) = jsonMonth r.
Proof.
  unfold jsonMonth. simpl. rewrite jsonNumber_idem. f_equal.
  rewrite <- list_fmap_compose. apply list_fmap_ext.
  intros i e _. apply jsonExpense_idem.
Qed.

Lemma jsonCopy_idem (d : Data) : jsonCopy (jsonCopy d) = jsonCopy d.
Proof.
  unfold jsonCopy. rewrite <- map_fmap_compose. apply map_fmap_ext.
  intros k r _. apply jsonMonth_idem.
Qed.

(** X15: a dataset that was loaded from a stored dataset is stored and
    loaded again as it is: after the first round trip nothing changes any
    more. *)
Theorem reload_is_stable (currentMonth currentMonth' : string) (d d' : Data) :
  loadData currentMonth (storeData d) = Some d' →
  loadData currentMonth' (storeData d') = Some d'.
Proof.
  rewrite !load_store_data. intros [= <-]. by rewrite jsonCopy_idem.
Qed.

Section MoreRenameProperties.
Context `{JSRuntime}.

Lemma renameIn_same (c : string) (e : Expense) : renameIn c c e = e.
Proof. unfold renameIn. case_bool_decide as Hc; [|done]. rewrite <- Hc. by destruct e. Qed.

Lemma jsonExpense_renameIn (old v : string) (e : Expense) :
  jsonExpense (renameIn old v (jsonExpense e)) = renameIn old v (jsonExpense e).
Proof.
  unfold renameIn. simpl. case_bool_decide; [|apply jsonExpense_idem].
  unfold jsonExpense. simpl. by rewrite !jsonNumber_idem.
Qed.

(** X16: the dataset left by a rename holds only numbers that JSON text
    denotes: it is stored and loaded again as it is. *)
Theorem renamed_dataset_round_trips (currentMonth : string) (st : AppState)
    (old : string) :
  editingCategory st = Some old → old ≠ "" →
  trim (newCategoryInput st) ≠ "" →
  trim (newCategoryInput st) ∉ categories st ∨ trim (newCategoryInput st) = old →
  let d' := data (next (handleSaveEditedCategory st)) in
  jsonExactData d' = true
  ∧ loadData currentMonth (storeData d') = Some d'.
Proof.
  intros Hed Hold Hv Hfree d'.
  assert (Hfix : jsonCopy d' = d').
  { apply map_eq. intros m. unfold jsonCopy at 1, d'. rewrite lookup_fmap.
    rewrite (rename_data_lookup st old m Hed Hold Hv Hfree).
    destruct (data st !! m) as [r|]; [|done]. simpl. f_equal.
    unfold jsonMonth. simpl. rewrite jsonNumber_idem. f_equal.
    rewrite <- list_fmap_compose. apply list_fmap_ext.
    intros i e _. apply jsonExpense_renameIn. }
  split.
  - by apply jsonCopy_fixed.
  - by rewrite load_store_data, Hfix.
Qed.

(** X17: opening a category for editing and saving it as it stands (a name
    that trimming leaves alone) raises no alert, keeps the category list,
    closes the edit and clears the input; a dataset whose numbers are all
    numbers that JSON text denotes is kept too. *)
Theorem edit_category_and_save_unchanged (cat : string) (st : AppState) :
  cat ≠ "" → trim cat = cat →
  let out := handleSaveEditedCategory (startEditCategory cat st) in
  alerted out = None
  ∧ categories (next out) = categories st
  ∧ editingCategory (next out) = None
  ∧ newCategoryInput (next out) = ""
  ∧ (jsonExactData (data st) = true → data (next out) = data st).
Proof.
  intros Hcat Htrim. simpl.
  rewrite (rename_when_valid (startEditCategory cat st) cat); simpl;
    rewrite ?Htrim; auto.
  split; [done|]. split; [|split; [done|split; [done|]]].
  - rewrite (list_fmap_ext _ (λ c, c) (categories st));
      [by rewrite list_fmap_id|].
    intros i c _. by case_bool_decide.
  - intros Hexact. rewrite (jsonCopy_exact _ Hexact).
    rewrite (map_fmap_ext _ (λ r, r) (data st)); [by rewrite map_fmap_id|].
    intros k r _. destruct r as [inc es]. simpl. f_equal.
    rewrite (list_fmap_ext _ (λ e, e) es); [by rewrite list_fmap_id|].
    intros i e _. apply renameIn_same.
Qed.

Lemma filter_fresh (v : string) (l : list string) :
  v ∉ l → filter (λ c, c ≠ v) l = l.
Proof.
  induction l as [|c l IH]; intros Hv; [done|].
  apply not_elem_of_cons in Hv as [Hne Hv].
  rewrite filter_cons_True by done. f_equal. by apply IH.
Qed.

(** X18: a new category that no expense carries is removed again by
    deleting it: no alert, and the category list and the dataset are the
    ones before the addition. *)
Theorem add_then_delete_category (st : AppState) :
  trim (newCategoryInput st) ≠ "" →
  trim (newCategoryInput st) ∉ categories st →
  categoryUsed (trim (newCategoryInput st)) (data st) = false →
  let out := handleDeleteCategory (trim (newCategoryInput st))
               (next (handleAddCategory st)) in
  alerted out = None
  ∧ categories (next out) = categories st
  ∧ data (next out) = data st.
Proof.
  intros Hv Hfresh Hunused. simpl. unfold handleAddCategory.
  rewrite (bool_decide_eq_false_2 _ Hv), (bool_decide_eq_false_2 _ Hfresh). simpl.
  unfold handleDeleteCategory. simpl. rewrite Hunused.
  assert (Hcats : filter (λ c, c ≠ trim (newCategoryInput st))
                    (categories st ++ [trim (newCategoryInput st)])%list
                  = categories st).
  { rewrite filter_app, (filter_fresh _ _ Hfresh).
    rewrite (filter_singleton_False _ _ []) by (intros Hc; by apply Hc).
    by rewrite app_nil_r. }
  destruct (bool_decide _); simpl; by rewrite Hcats.
Qed.

End MoreRenameProperties.

(** ** The chart after a change *)

Lemma filter_fmap {A B} (f : A → B) (P : B → Prop) `{∀ y, Decision (P y)}
    (l : list A) :
  filter P (f <$> l) = f <$> filter (λ x, P (f x)) l.
Proof.
  induction l as [|x l IH]; [done|]. csimpl.
  destruct (decide (P (f x))) as [Hp | Hp].
  - rewrite !filter_cons_True by done. csimpl. by rewrite IH.
  - by rewrite !filter_cons_False by done.
Qed.

Lemma filter_ext_elem_of {A} (P Q : A → Prop) `{∀ x, Decision (P x)}
    `{∀ x, Decision (Q x)} (l : list A) :
  (∀ x, x ∈ l → (P x ↔ Q x)) → filter P l = filter Q l.
Proof.
  induction l as [|x l IH]; intros Hpq; [done|].
  assert (Hl : filter P l = filter Q l).
  { apply IH. intros y Hy. apply Hpq. by right. }
  destruct (decide (P x)) as [Hp | Hp].
  - rewrite !filter_cons_True; [by rewrite Hl | by apply (Hpq x); [left|] | done].
  - rewrite !filter_cons_False; [done | | done].
    intros Hq. apply Hp, (Hpq x); [left | done].
Qed.

Lemma fold_amounts_fmap (f : Expense → Expense) (l : list Expense) (s : float) :
  (∀ e, amount (f e) = amount e) →
  fold_left (λ s e, (s + ToNumber (amount e))%float) (f <$> l) s
  = fold_left (λ s e, (s + ToNumber (amount e))%float) l s.
Proof.
  intros Hf. revert s. induction l as [|e l IH]; intros s; [done|].
  csimpl. by rewrite Hf, IH.
Qed.

Lemma sumAmounts_fmap (f : Expense → Expense) (l : list Expense) :
  (∀ e, amount (f e) = amount e) → sumAmounts (f <$> l) = sumAmounts l.
Proof. intros Hf. by apply fold_amounts_fmap. Qed.

Lemma monthExpenses_referenced (st : AppState) (e : Expense) :
  referenced st → e ∈ monthExpenses st → category e ∈ categories st.
Proof.
  intros Href He. unfold monthExpenses in He.
  destruct (data st !! selectedMonth st) as [r|] eqn:Hr.
  - by apply (Href (selectedMonth st) r).
  - by apply elem_of_nil in He.
Qed.

Section ChartProperties.
Context `{JSRuntime}.

(** X19: deleting a category that no expense carries leaves the chart of
    before without the bucket of that name; a rejected deletion leaves the
    chart as it was. *)
Theorem chart_after_delete_category (cat : string) (st : AppState) :
  let out := handleDeleteCategory cat st in
  (categoryUsed cat (data st) = true → chartData (next out) = chartData st)
  ∧ (categoryUsed cat (data st) = false →
       chartData (next out) = filter (λ b, name b ≠ cat) (chartData st)).
Proof.
  simpl. unfold handleDeleteCategory.
  destruct (categoryUsed cat (data st)); split; try done.
  intros _.
  assert (Hchart : chartData (setCategories (λ prev, filter (λ c, c ≠ cat) prev) st)
                   = filter (λ b, name b ≠ cat) (chartData st)).
  { unfold chartData. simpl. by rewrite filter_fmap. }
  by destruct (bool_decide _).
Qed.

(** X20: when every expense carries a category of the list, adding a new
    category leaves the chart of before followed by a bucket of value 0 for
    the new name. *)
Theorem chart_after_add_category (st : AppState) :
  referenced st →
  trim (newCategoryInput st) ≠ "" →
  trim (newCategoryInput st) ∉ categories st →
  chartData (next (handleAddCategory st))
  = (chartData st ++ [{| name := trim (newCategoryInput st); value := 0 |}])%list.
Proof.
  intros Href Hv Hfresh. unfold handleAddCategory.
  rewrite (bool_decide_eq_false_2 _ Hv), (bool_decide_eq_false_2 _ Hfresh).
  unfold chartData. simpl. rewrite fmap_app. f_equal. simpl.
  change (monthExpenses
            (setNewCategoryInput ""
               (setCategories (λ prev, (prev ++ [trim (newCategoryInput st)])%list) st)))
    with (monthExpenses st).
  rewrite filter_none; [done|].
  intros e He Hc. apply Hfresh. rewrite <- Hc.
  by apply monthExpenses_referenced.
Qed.

(** X21: when every expense carries a category of the list and the numbers
    of the dataset are numbers that JSON text denotes, renaming [old] to a
    name absent from the list leaves the chart of before with the bucket of
    [old] renamed: the same buckets in the same order with the same
    values. *)
Theorem chart_after_rename (st : AppState) (old : string) :
  editingCategory st = Some old → old ≠ "" →
  trim (newCategoryInput st) ≠ "" →
  trim (newCategoryInput st) ∉ categories st →
  jsonExactData (data st) = true →
  referenced st →
  chartData (next (handleSaveEditedCategory st))
  = (λ b, {| name := if bool_decide (name b = old)
                     then trim (newCategoryInput st) else name b;
             value := value b |}) <$> chartData st.
Proof.
  intros Hed Hold Hv Hfresh Hexact Href.
  rewrite (rename_when_valid st old Hed Hold Hv (or_introl Hfresh)).
  set (v := trim (newCategoryInput st)) in *.
  assert (Hexp : monthExpenses
                   (next (quiet (clearCategoryEdit
                      (setData (λ prev,
                         (λ m, {| income := income m;
                                  expenses := renameIn old v <$> expenses m |})
                           <$> jsonCopy prev)
                         (setCategories
                            (λ prev, (λ c, if bool_decide (c = old) then v else c) <$> prev)
                            st)))))
                 = renameIn old v <$> monthExpenses st).
  { unfold monthExpenses. simpl. rewrite (jsonCopy_exact _ Hexact), lookup_fmap.
    by destruct (data st !! selectedMonth st). }
  unfold chartData. rewrite Hexp. simpl.
  rewrite <- !list_fmap_compose. apply list_fmap_ext.
  intros i c Hc. simpl. f_equal.
  apply list_elem_of_lookup_2 in Hc.
  rewrite filter_fmap, sumAmounts_fmap
    by (intros e; unfold renameIn; by case_bool_decide).
  f_equal. apply filter_ext_elem_of. intros e He.
  pose proof (monthExpenses_referenced st e Href He) as Hin.
  unfold renameIn. repeat case_bool_decide; simpl; split; intros E; subst;
    try done; try congruence.
Qed.

End ChartProperties.

(** X22: right after the selection of a month that had no record, the month
    has no expenses, the total and the remaining value are 0, the income
    field shows 0 and every bucket of the chart has the value 0. *)
Theorem fresh_month_is_empty (m : string) (st : AppState) :
  data st !! m = None →
  let st' := selectMonth m st in
  monthExpenses st' = []
  ∧ totalExpense st' = 0%float
  ∧ remaining st' = 0%float
  ∧ incomeInput st' = 0%float
  ∧ chartData st' = (λ c, {| name := c; value := 0 |}) <$> categories st.
Proof.
  intros Hnone st'. unfold st'. clear st'.
  assert (Hst : selectMonth m st
                = setIncomeInput 0
                    (setData (λ prev, <[m := emptyMonth]> prev) (setSelectedMonth m st))).
  { unfold selectMonth, ensureMonth. simpl. rewrite Hnone.
    unfold syncIncomeInput. simpl. by rewrite lookup_insert_eq. }
  rewrite Hst.
  assert (Hexp : monthExpenses
                   (setIncomeInput 0
                      (setData (λ prev, <[m := emptyMonth]> prev) (setSelectedMonth m st)))
                 = []).
  { unfold monthExpenses. simpl. by rewrite lookup_insert_eq. }
  split; [exact Hexp|]. split; [|split; [|split]].
  - unfold totalExpense. by rewrite Hexp.
  - unfold remaining, totalExpense. rewrite Hexp. simpl.
    rewrite lookup_insert_eq. vm_compute. reflexivity.
  - reflexivity.
  - unfold chartData. by rewrite Hexp.
Qed.

(** ** The palette and the month key *)

(** X23: every bucket index has a colour of the palette, and the colours
    repeat with the period of the palette: buckets six apart share one. *)
Theorem cell_fill_cycles (index : nat) :
  (∃ c, cellFill index = Some c ∧ c ∈ COLORS)
  ∧ cellFill (index + length COLORS) = cellFill index.
Proof.
  unfold cellFill. split.
  - destruct (lookup_lt_is_Some_2 COLORS (index mod length COLORS)) as [c Hc].
    { apply Nat.mod_upper_bound. done. }
    exists c. split; [done|]. by apply list_elem_of_lookup_2 in Hc.
  - f_equal. rewrite <- (Nat.mul_1_l (length COLORS)) at 1.
    by rewrite Nat.Div0.mod_add.
Qed.

Lemma string_length_app (s t : string) :
  String.length (s +:+ t) = String.length s + String.length t.
Proof. induction s as [|c s IH]; simpl; [done | by rewrite IH]. Qed.

Lemma string_app_inj_suffix (s1 s2 t1 t2 : string) :
  String.length t1 = String.length t2 →
  s1 +:+ t1 = s2 +:+ t2 → s1 = s2 ∧ t1 = t2.
Proof.
  revert s2. induction s1 as [|c1 s1 IH]; intros [|c2 s2] Hlen E.
  - done.
  - exfalso. change (t1 = String c2 (s2 +:+ t2)) in E.
    rewrite E in Hlen. simpl in Hlen. rewrite string_length_app in Hlen. lia.
  - exfalso. change (String c1 (s1 +:+ t1) = t2) in E.
    rewrite <- E in Hlen. simpl in Hlen. rewrite string_length_app in Hlen. lia.
  - change (String c1 (s1 +:+ t1) = String c2 (s2 +:+ t2)) in E.
    injection E as -> E. destruct (IH s2 Hlen E) as [-> ->]. done.
Qed.

Lemma month_part (month : nat) :
  month < 12 →
  padStart 2 (pretty (month + 1))
  = nth month ["01"; "02"; "03"; "04"; "05"; "06";
               "07"; "08"; "09"; "10"; "11"; "12"] "".
Proof.
  intros Hm. do 12 (destruct month as [|month]; [vm_compute; reflexivity|]). lia.
Qed.

(** X24: for a month index below 12, the month key is the year in decimal, a
    dash and the month number from 01 to 12 in two digits; two dates give
    the same key only if they have the same year and the same month. *)
Theorem month_key_format (year year' : Z) (month month' : nat) :
  month < 12 → month' < 12 →
  (∃ mm, getCurrentMonth year month = pretty year +:+ "-" +:+ mm
         ∧ String.length mm = 2
         ∧ mm = nth month ["01"; "02"; "03"; "04"; "05"; "06";
                           "07"; "08"; "09"; "10"; "11"; "12"] "")
  ∧ (getCurrentMonth year month = getCurrentMonth year' month' →
       year = year' ∧ month = month').
Proof.
  intros Hm Hm'. unfold getCurrentMonth. rewrite !month_part by done. split.
  - eexists. split; [done|]. split; [|done].
    do 12 (destruct month as [|month]; [done|]). lia.
  - intros E. apply string_app_inj_suffix in E as [Hy Hmm].
    + split; [by apply (inj pretty)|]. injection Hmm as Hmm.
      do 12 (destruct month as [|month];
             [do 12 (destruct month' as [|month']; [done || discriminate|]); lia|]).
      lia.
    + simpl.
      do 12 (destruct month as [|month];
             [do 12 (destruct month' as [|month']; [done|]); lia|]).
      lia.
Qed.

(** ** Editing an expense *)

(** X25: opening an expense of the selected month for editing and submitting
    the form as it was filled leaves the dataset as it was and closes the
    edit, provided the expense has a truthy id that no other expense of the
    month shares, a title and a category that are not empty, and an amount
    whose text is not empty and reads back as the amount. *)
Theorem edit_and_submit_unchanged `{JSRuntime} (toString : float → string)
    (now : float) (st st1 : AppState) (r : MonthData) (e : Expense) :
  data st !! selectedMonth st = Some r →
  e ∈ expenses r →
  truthy (id e) = true → title e ≠ "" → category e ≠ "" →
  (∀ e', e' ∈ expenses r → strictEq (id e') (id e) = true → e' = e) →
  (∀ a, amount e = Num a → toString a ≠ "" ∧ Number (toString a) = a) →
  handleEditExpense toString e st = Some st1 →
  data (handleAddOrUpdateExpense now st1) = data st
  ∧ editingExpId (handleAddOrUpdateExpense now st1) = null
  ∧ expTitle (handleAddOrUpdateExpense now st1) = "".
Proof.
  intros Hr He Hid Ht Hc Huniq Htext Hedit.
  unfold handleEditExpense in Hedit.
  destruct (amount e) as [|a] eqn:Ha; [done|]. injection Hedit as <-.
  destruct (Htext a eq_refl) as [Hne Hback].
  rewrite submit_guard_passes by done. simpl.
  rewrite Hid. unfold monthOrEmpty. rewrite Hr. simpl.
  split; [|done].
  apply insert_id. rewrite Hr. f_equal. destruct r as [inc es]. simpl in *.
  f_equal. symmetry. trans (Datatypes.id <$> es); [|apply list_fmap_id].
  apply list_fmap_ext.
  intros i e' Hi. apply list_elem_of_lookup_2 in Hi. unfold Datatypes.id.
  destruct (strictEq (id e') (id e)) eqn:Heq; [|done].
  rewrite (Huniq e' Hi Heq), Hback, <- Ha. by destruct e.
Qed.

(** ** Closed instances of the further properties *)

(** Inversion of a membership in an explicit list. *)
Ltac elem_cases He :=
  repeat (apply elem_of_cons in He as [-> | He]);
  [.. | by apply elem_of_nil in He].

Lemma submit_appends_expense_witness :
  let st := formState twoMonths "2024-04" "Gift" "25" "Shopping" null "" None in
  let st' := @handleAddOrUpdateExpense exampleRuntime 99 st in
  monthExpenses st' = [expense 3 "Dinner" 80 "Food"; expense 99 "Gift" 25 "Shopping"]
  ∧ totalExpense st' = 105%float.
Proof.
  intros st st'.
  destruct (@submit_appends_expense exampleRuntime 99 st)
    as (Hexp & _ & _ & Htotal); [reflexivity | discriminate..|].
  split; [exact Hexp|]. fold st' in Htotal. rewrite Htotal. vm_compute. reflexivity.
Defined.

Lemma delete_absent_expense_is_noop_witness :
  data (handleDeleteExpense (Num 42) mayState) = twoMonths.
Proof.
  apply (delete_absent_expense_is_noop (Num 42) mayState
           {| income := Num 5000;
              expenses := [expense 1 "Rent" 1200 "Bills";
                           expense 2 "Lunch" 300 "Food"] |}).
  - vm_compute. reflexivity.
  - intros e He. simpl in He. elem_cases He; vm_compute; reflexivity.
Defined.

Lemma add_then_delete_expense_witness :
  let st := formState twoMonths "2024-04" "Gift" "25" "Shopping" null "" None in
  monthExpenses (handleDeleteExpense (Num 99)
                   (@handleAddOrUpdateExpense exampleRuntime 99 st))
  = [expense 3 "Dinner" 80 "Food"].
Proof.
  intros st.
  rewrite (@add_then_delete_expense exampleRuntime 99 st).
  - vm_compute. reflexivity.
  - reflexivity.
  - discriminate.
  - discriminate.
  - discriminate.
  - vm_compute. reflexivity.
  - intros e He. change (monthExpenses st) with [expense 3 "Dinner" 80 "Food"] in He.
    elem_cases He. vm_compute. reflexivity.
Defined.

Lemma select_then_save_income_witness :
  data (handleSaveIncome (selectMonth "2024-04" mayState)) = twoMonths.
Proof.
  destruct (select_then_save_income "2024-04" mayState
              {| income := Num 4000; expenses := [expense 3 "Dinner" 80 "Food"] |})
    as [_ Hkept].
  - vm_compute. reflexivity.
  - apply Hkept. vm_compute. reflexivity.
Defined.

Lemma rename_leaves_no_reference_witness :
  let st := formState twoMonths "2024-05" "" "" "Food" null "Groceries" (Some "Food") in
  let out := @handleSaveEditedCategory exampleRuntime st in
  ("Food" ∉ categories (next out))
  ∧ categoryUsed "Food" (data (next out)) = false.
Proof.
  intros st out.
  destruct (@rename_leaves_no_reference exampleRuntime st "Food")
    as (Hlist & Hused & _).
  - reflexivity.
  - discriminate.
  - vm_compute. discriminate.
  - apply (bool_decide_unpack _). vm_compute. reflexivity.
  - vm_compute. discriminate.
  - split; [exact Hlist | exact Hused].
Defined.

Lemma references_are_preserved_witness :
  let st := formState twoMonths "2024-05" "" "" "Food" null "Groceries" (Some "Food") in
  referenced (next (@handleSaveEditedCategory exampleRuntime st))
  ∧ referenced (next (handleDeleteCategory "Travel" st))
  ∧ referenced (handleDeleteExpense (Num 2) st).
Proof.
  intros st.
  destruct (@references_are_preserved exampleRuntime st "Travel" "2024-06" (Num 2))
    as (_ & Hren & Hdel & Hexp & _).
  - apply referencedb_spec. vm_compute. reflexivity.
  - split; [exact Hren|]. split; [exact Hdel | exact Hexp].
Defined.

Lemma submit_keeps_references_witness :
  let st := formState twoMonths "2024-04" "Gift" "25" "Shopping" null "" None in
  referenced (@handleAddOrUpdateExpense exampleRuntime 99 st).
Proof.
  intros st. apply (@submit_keeps_references exampleRuntime 99 st).
  - apply referencedb_spec. vm_compute. reflexivity.
  - apply (bool_decide_unpack _). vm_compute. reflexivity.
Defined.

Lemma months_are_never_removed_witness :
  let st := formState twoMonths "2024-05" "" "" "Food" null "Groceries" (Some "Food") in
  is_Some (data (next (@handleSaveEditedCategory exampleRuntime st)) !! "2024-04")
  ∧ is_Some (data (selectMonth "2024-06" st) !! "2024-04").
Proof.
  intros st.
  destruct (@months_are_never_removed exampleRuntime st "2024-04" "Travel" "2024-06"
              99 (Num 2))
    as (_ & _ & _ & _ & Hren & _ & Hsel).
  - vm_compute. eauto.
  - split; [exact Hren | exact Hsel].
Defined.

(** A dataset with a NaN income: loaded once with [null], then kept. *)
Lemma reload_is_stable_witness :
  let d : Data := {[ "2024-05" := {| income := Num nan; expenses := [] |} ]} in
  let d' : Data := {[ "2024-05" := {| income := null; expenses := [] |} ]} in
  loadData "2024-05" (storeData d) = Some d'
  ∧ loadData "2024-06" (storeData d') = Some d'.
Proof.
  intros d d'.
  assert (Hfirst : loadData "2024-05" (storeData d) = Some d').
  { rewrite load_store_data. unfold jsonCopy, d, d'. by rewrite map_fmap_singleton. }
  split; [exact Hfirst|].
  exact (reload_is_stable "2024-05" "2024-06" d d' Hfirst).
Defined.

Lemma renamed_dataset_round_trips_witness :
  let trip := {| id := Num 7; title := "Trip"; amount := Num nan; category := "Travel" |} in
  let d : Data := {[ "2024-05" := {| income := Num 5000; expenses := [trip] |} ]} in
  let st := formState d "2024-05" "" "" "Food" null "Groceries" (Some "Food") in
  let d' := data (next (@handleSaveEditedCategory exampleRuntime st)) in
  jsonExactData d = false
  ∧ jsonExactData d' = true
  ∧ loadData "2024-05" (storeData d') = Some d'.
Proof.
  intros trip d st d'. split; [vm_compute; reflexivity|].
  apply (@renamed_dataset_round_trips exampleRuntime "2024-05" st "Food").
  - reflexivity.
  - discriminate.
  - vm_compute. discriminate.
  - left. apply (bool_decide_unpack _). vm_compute. reflexivity.
Defined.

Lemma edit_category_and_save_unchanged_witness :
  let out := @handleSaveEditedCategory exampleRuntime (startEditCategory "Food" mayState) in
  alerted out = None
  ∧ categories (next out) = ["Food"; "Travel"; "Shopping"; "Bills"]
  ∧ data (next out) = twoMonths.
Proof.
  intros out.
  destruct (@edit_category_and_save_unchanged exampleRuntime "Food" mayState)
    as (Hquiet & Hcats & _ & _ & Hdata).
  - discriminate.
  - vm_compute. reflexivity.
  - split; [exact Hquiet|]. split; [exact Hcats|].
    apply Hdata. vm_compute. reflexivity.
Defined.

Lemma add_then_delete_category_witness :
  let st := formState twoMonths "2024-05" "" "" "Food" null " Health " None in
  let out := handleDeleteCategory "Health" (next (@handleAddCategory exampleRuntime st)) in
  categories (next (@handleAddCategory exampleRuntime st))
  = ["Food"; "Travel"; "Shopping"; "Bills"; "Health"]
  ∧ alerted out = None
  ∧ categories (next out) = ["Food"; "Travel"; "Shopping"; "Bills"]
  ∧ data (next out) = twoMonths.
Proof.
  intros st out. split; [vm_compute; reflexivity|].
  apply (@add_then_delete_category exampleRuntime st).
  - vm_compute. discriminate.
  - apply (bool_decide_unpack _). vm_compute. reflexivity.
  - vm_compute. reflexivity.
Defined.

Lemma chart_after_add_category_witness :
  let st := formState twoMonths "2024-05" "" "" "Food" null "Health" None in
  chartData (next (@handleAddCategory exampleRuntime st))
  = [{| name := "Food"; value := 300 |}; {| name := "Travel"; value := 0 |};
     {| name := "Shopping"; value := 0 |}; {| name := "Bills"; value := 1200 |};
     {| name := "Health"; value := 0 |}].
Proof.
  intros st. rewrite (@chart_after_add_category exampleRuntime st).
  - vm_compute. reflexivity.
  - apply referencedb_spec. vm_compute. reflexivity.
  - vm_compute. discriminate.
  - apply (bool_decide_unpack _). vm_compute. reflexivity.
Defined.

Lemma chart_after_rename_witness :
  let st := formState twoMonths "2024-05" "" "" "Food" null "Groceries" (Some "Food") in
  chartData (next (@handleSaveEditedCategory exampleRuntime st))
  = [{| name := "Groceries"; value := 300 |}; {| name := "Travel"; value := 0 |};
     {| name := "Shopping"; value := 0 |}; {| name := "Bills"; value := 1200 |}].
Proof.
  intros st. rewrite (@chart_after_rename exampleRuntime st "Food").
  - vm_compute. reflexivity.
  - reflexivity.
  - discriminate.
  - vm_compute. discriminate.
  - apply (bool_decide_unpack _). vm_compute. reflexivity.
  - vm_compute. reflexivity.
  - apply referencedb_spec. vm_compute. reflexivity.
Defined.

Lemma fresh_month_is_empty_witness :
  data mayState !! "2024-06" = None
  ∧ totalExpense (selectMonth "2024-06" mayState) = 0%float
  ∧ remaining (selectMonth "2024-06" mayState) = 0%float
  ∧ chartData (selectMonth "2024-06" mayState)
    = [{| name := "Food"; value := 0 |}; {| name := "Travel"; value := 0 |};
       {| name := "Shopping"; value := 0 |}; {| name := "Bills"; value := 0 |}].
Proof.
  assert (Hnone : data mayState !! "2024-06" = None) by (vm_compute; reflexivity).
  destruct (fresh_month_is_empty "2024-06" mayState Hnone)
    as (_ & Htotal & Hrem & _ & Hchart).
  split; [exact Hnone|]. split; [exact Htotal|]. split; [exact Hrem | exact Hchart].
Defined.

(** May 2024 and December 2024. *)
Lemma month_key_format_witness :
  getCurrentMonth 2024 4 = "2024-05"
  ∧ getCurrentMonth 2024 11 = "2024-12"
  ∧ (getCurrentMonth 2024 4 = getCurrentMonth 2024 11 → 4 = 11).
Proof.
  destruct (month_key_format 2024 2024 4 11) as [_ Hinj]; [lia | lia |].
  split; [vm_compute; reflexivity|]. split; [vm_compute; reflexivity|].
  intros E. by destruct (Hinj E).
Defined.

(** Opening the lunch of May and submitting it as it is; the amount 300 is
    shown as the text 300. *)
Lemma edit_and_submit_unchanged_witness :
  let lunch := expense 2 "Lunch" 300 "Food" in
  ∃ st1, handleEditExpense (λ _, "300") lunch mayState = Some st1
    ∧ editingExpId st1 = Num 2
    ∧ data (@handleAddOrUpdateExpense exampleRuntime 99 st1) = twoMonths.
Proof.
  intros lunch. eexists. split; [reflexivity|]. split; [reflexivity|].
  apply (@edit_and_submit_unchanged exampleRuntime (λ _, "300") 99 mayState _
           {| income := Num 5000;
              expenses := [expense 1 "Rent" 1200 "Bills"; lunch] |} lunch).
  - vm_compute. reflexivity.
  - right. left.
  - vm_compute. reflexivity.
  - discriminate.
  - discriminate.
  - intros e' He' Heq. simpl in He'. elem_cases He'; [|reflexivity].
    vm_compute in Heq. discriminate.
  - intros a [= <-]. split; [discriminate | vm_compute; reflexivity].
  - reflexivity.
Defined.
